(** * NatVsTech: natural vs. technical particle classification

    A shallow embedding of [NatVsTech.py] (class [NatVsTech]) and the
    properties of its data conditioning, stage selection, parameter search,
    recursive feature elimination and inference reporting.

    Conventions of the embedding
    - a pandas [DataFrame] is a list of column names and a list of rows, each
      row carrying its index label and one cell per column;
    - a float cell is a rational or NaN ([None]); only comparisons and counts
      of cells are used by the code that is modelled here;
    - a python [dict] with string keys is a [gmap string pyval];
    - a method of the class is a computation in the monad [M], which threads
      the instance attributes ([self]), the global numpy random state, the
      standard output and the files written, and which may raise;
    - scikit-learn (classifier, grid search, split generator, RFECV ranking
      and the three metrics) is a capability record [Sklearn]. *)

From Stdlib Require Import QArith ZArith List String Bool Lia.
From stdpp Require Import gmap strings list.
Import ListNotations.

Open Scope string_scope.
Open Scope Z_scope.

(** ** Floats, frames and arrays *)

(** A float: [None] is NaN (a missing value). *)
Definition float := option Q.

Definition NaN : float := None.

(** [c >= t] on floats; any comparison with NaN is false. *)
Definition fge (c : float) (t : Q) : bool :=
  match c with Some q => Qle_bool t q | None => false end.

(** [c <= t] on floats. *)
Definition fle (c : float) (t : Q) : bool :=
  match c with Some q => Qle_bool q t | None => false end.

Definition notna (c : float) : bool :=
  match c with Some _ => true | None => false end.

(** A row: its index label and its cells, in column order. *)
Definition row := (Z * list float)%type.

Record DataFrame := mkFrame {
  columns : list string;
  rows : list row
}.

(** A numeric array as numpy holds it: a list of rows. *)
Definition matrix := list (list float).
Definition labels := list Z.

(** [df.as_matrix()] *)
Definition as_matrix (df : DataFrame) : matrix := map snd (rows df).

(** [df.dropna()]: drops every row that has a missing cell. *)
Definition dropna (df : DataFrame) : DataFrame :=
  mkFrame (columns df) (List.filter (fun r => forallb notna (snd r)) (rows df)).

(** [df[df >= 0]]: boolean-frame indexing keeps the shape and puts NaN where
    the mask is false. *)
Definition where_ge0 (df : DataFrame) : DataFrame :=
  mkFrame (columns df)
          (map (fun r : row => (fst r, map (fun c => if fge c 0 then c else NaN) (snd r)))
               (rows df)).

(** [NatVsTech.filter_negative]: [data[data >= 0].dropna()]. It reads and
    writes no attribute of the instance. *)
Definition filter_negative (data : DataFrame) : DataFrame :=
  dropna (where_ge0 data).

(** Position of a column label. *)
Fixpoint column_index (name : string) (cols : list string) : option nat :=
  match cols with
  | [] => None
  | c :: cs => if String.eqb c name then Some 0%nat
               else option_map S (column_index name cs)
  end.

(** The cell of a row at a column position. *)
Definition cell_at (j : nat) (r : row) : float :=
  match nth_error (snd r) j with Some c => c | None => NaN end.

(** [df.reset_index(drop=True)] *)
Definition reset_index (df : DataFrame) : DataFrame :=
  mkFrame (columns df)
          (map (fun p : nat * row => (Z.of_nat (fst p), snd (snd p)))
               (combine (seq 0 (length (rows df))) (rows df))).

(** ** Python values, exceptions and the method monad *)

Inductive exn :=
| KeyError (key : string)
| IndexError
| TypeError (msg : string)
| ValueError (msg : string)
| AttributeError (attr : string)
| NotFittedError.

(** A hyper-parameter value. *)
Inductive pyval :=
| PInt (z : Z)
| PFloat (q : Q)
| PStr (s : string)
| PBool (b : bool)
| PNone.

(** A keyword dictionary such as [gbc_init_params]. *)
Abbreviation Params := (gmap string pyval).

(** A parameter grid: the candidate values of each hyper-parameter. *)
Abbreviation Grid := (gmap string (list pyval)).

Inductive res (A : Type) :=
| Ok (a : A)
| Raise (e : exn).
Arguments Ok {A} a.
Arguments Raise {A} e.

(** What is passed as [training_data] to the constructor: a list (the
    default is the empty list) or a frame; [list(...)] of either. *)
Inductive pydata :=
| PyList (items : list string)
| PyFrame (df : DataFrame).

Definition py_list (d : pydata) : list string :=
  match d with
  | PyList items => items
  | PyFrame df => columns df
  end.

(** ** scikit-learn as a capability record

    The gradient boosting classifier, the grid search, the stratified split
    generator, the ranking step of RFECV and the metrics are not code of
    this repository. [rng] is numpy's global random state, which an
    estimator built without an integer [random_state] draws from and
    advances when it is fitted. *)
Class Sklearn := {
  rng : Type;
  model : Type;
  (** [fit(X, y)] of a classifier built with the keywords [params] *)
  gbc_fit : Params -> matrix -> labels -> rng -> res model * rng;
  (** [predict(X)] of a fitted classifier *)
  gbc_predict : model -> matrix -> res labels;
  (** [predict_proba(X)]: one pair (class 0, class 1) per row *)
  gbc_predict_proba : model -> matrix -> res (list (float * float));
  (** [feature_importances_] *)
  gbc_feature_importances : model -> list float;
  (** [loss_(y, y_pred)] for each [y_pred] of [staged_decision_function(X)] *)
  gbc_staged_loss : model -> matrix -> labels -> list float;
  (** [GridSearchCV(estimator, cv, param_grid, n_jobs=-1).fit(X, y).best_params_];
      the search clones the estimator, so only its parameters matter *)
  grid_search : Params -> Z -> Grid -> matrix -> labels -> rng -> res Params * rng;
  (** [StratifiedShuffleSplit(n_splits, test_size, random_state).split(X, y)] *)
  sss_split : Z -> Q -> Z -> matrix -> labels -> res (list (list nat * list nat));
  (** the elimination of [RFECV(estimator, step=1, cv, scoring='f1_weighted')]:
      [support_], [ranking_] and [grid_scores_]; the flag tells whether the
      estimator class exposes [coef_] *)
  rfe_select : bool -> Params -> Z -> matrix -> labels -> rng ->
               res (list bool * list Z * list float) * rng;
  f1_weighted : labels -> labels -> res float;
  r2_score : labels -> labels -> res float;
  mean_absolute_error : labels -> labels -> res float
}.

Section NatVsTech.
Context {sk : Sklearn}.

(** A classifier object: its class (plain, or the subclass that copies
    [feature_importances_] to [coef_] on fit), its constructor parameters
    and its fitted state. *)
Record Classifier := mkClf {
  clf_with_coef : bool;
  clf_params : Params;
  clf_model : option model
}.

(** [GradientBoostingClassifier] built with the keywords [params] *)
Definition GradientBoostingClassifier (params : Params) : Classifier :=
  mkClf false params None.

(** [GradientBoostingClassifierrWithCoef] built with the keywords [params] *)
Definition GradientBoostingClassifierrWithCoef (params : Params) : Classifier :=
  mkClf true params None.

(** The attributes of a [NatVsTech] instance. The last four do not exist
    until a method sets them. *)
Record NatVsTech := mkNvT {
  training_data : pydata;
  target_data : pydata;
  output_summary_base_name : string;
  threshold_value : option Q;
  gbc_base : option Classifier;
  optimum_boosting_stages : option Z;
  gbc_best_params : option Params
}.

(** [NatVsTech.__init__] *)
Definition init (training_data target_data : pydata) (base_name : string) : NatVsTech :=
  mkNvT training_data target_data base_name None None None None.

(** [NatVsTech()] with every default. *)
Definition init_default : NatVsTech :=
  init (PyList []) (PyList []) "output_summary.csv".

(** One row of the summary table. The two probability columns hold an int,
    or the empty list they were initialised with. *)
Record SummaryRow := mkRow {
  run_name : string;
  total_particle_count : Q;
  nat_particle_count : Q;
  tec_particle_count : Q;
  nat_above_proba_thresh : option Z;
  tech_above_proba_thresh : option Z
}.

Inductive printed :=
| PrintRun (run n_splits : Z)
| PrintStages (stages : Z)
| PrintWhere (positions : list nat).

Inductive csv :=
| CsvFrame (df : DataFrame)
| CsvSummary (table : list SummaryRow).

Record World := mkWorld {
  self : NatVsTech;
  np_random : rng;
  stdout : list printed;
  written : list (string * csv)
}.

Definition M (A : Type) : Type := World -> res A * World.

Definition ret {A} (a : A) : M A := fun w => (Ok a, w).

Definition raise {A} (e : exn) : M A := fun w => (Raise e, w).

Definition bind {A B} (m : M A) (k : A -> M B) : M B :=
  fun w => match m w with
           | (Ok a, w') => k a w'
           | (Raise e, w') => (Raise e, w')
           end.

Notation "x <- m ;; k" := (bind m (fun x => k))
  (at level 100, m at next level, right associativity).
Notation "m ;;; k" := (bind m (fun _ => k))
  (at level 100, right associativity).

Definition lift {A} (r : res A) : M A := fun w => (r, w).

(** A call that draws from numpy's global random state. *)
Definition with_rng {A} (f : rng -> res A * rng) : M A :=
  fun w => let '(r, g) := f (np_random w) in
           (r, mkWorld (self w) g (stdout w) (written w)).

Definition print (p : printed) : M unit :=
  fun w => (Ok tt, mkWorld (self w) (np_random w) (stdout w ++ [p])%list (written w)).

Definition to_csv (path : string) (c : csv) : M unit :=
  fun w => (Ok tt, mkWorld (self w) (np_random w) (stdout w) (written w ++ [(path, c)])%list).

Definition get_self : M NatVsTech := fun w => (Ok (self w), w).

Definition set_self (s : NatVsTech) : M unit :=
  fun w => (Ok tt, mkWorld s (np_random w) (stdout w) (written w)).

(** Reading an attribute that may not exist yet. *)
Definition getattr {A} (name : string) (f : NatVsTech -> option A) : M A :=
  s <- get_self ;;
  match f s with
  | Some a => ret a
  | None => raise (AttributeError name)
  end.

Definition set_threshold_value (t : Q) : M unit :=
  s <- get_self ;;
  set_self (mkNvT (training_data s) (target_data s) (output_summary_base_name s)
                  (Some t) (gbc_base s) (optimum_boosting_stages s) (gbc_best_params s)).

Definition set_gbc_base (c : Classifier) : M unit :=
  s <- get_self ;;
  set_self (mkNvT (training_data s) (target_data s) (output_summary_base_name s)
                  (threshold_value s) (Some c) (optimum_boosting_stages s) (gbc_best_params s)).

Definition set_optimum_boosting_stages (n : Z) : M unit :=
  s <- get_self ;;
  set_self (mkNvT (training_data s) (target_data s) (output_summary_base_name s)
                  (threshold_value s) (gbc_base s) (Some n) (gbc_best_params s)).

Definition set_gbc_best_params (p : Params) : M unit :=
  s <- get_self ;;
  set_self (mkNvT (training_data s) (target_data s) (output_summary_base_name s)
                  (threshold_value s) (gbc_base s) (optimum_boosting_stages s) (Some p)).

(** [for x in xs: acc = body(acc, x)]; the loop stops at the first
    exception. *)
Fixpoint for_each {A S} (body : S -> A -> M S) (xs : list A) (acc : S) : M S :=
  match xs with
  | [] => ret acc
  | x :: xs' => acc' <- body acc x ;; for_each body xs' acc'
  end.

(** [clf.fit(X, y)]: the object is fitted in place. *)
Definition fit (clf : Classifier) (X : matrix) (y : labels) : M Classifier :=
  m <- with_rng (gbc_fit (clf_params clf) X y) ;;
  ret (mkClf (clf_with_coef clf) (clf_params clf) (Some m)).

(** [clf.predict(X)] *)
Definition predict (clf : Classifier) (X : matrix) : M labels :=
  match clf_model clf with
  | Some m => lift (gbc_predict m X)
  | None => raise NotFittedError
  end.

(** [clf.predict_proba(X)] *)
Definition predict_proba (clf : Classifier) (X : matrix) : M (list (float * float)) :=
  match clf_model clf with
  | Some m => lift (gbc_predict_proba m X)
  | None => raise NotFittedError
  end.

(** [clf.feature_importances_] *)
Definition feature_importances_ (clf : Classifier) : M (list float) :=
  match clf_model clf with
  | Some m => ret (gbc_feature_importances m)
  | None => raise NotFittedError
  end.

(** ** Data conditioning *)

(** [NatVsTech.apply_detection_threshold]:
    [data[data[isotope_trigger] >= threshold_value].dropna()], then the
    threshold is stored on the instance. *)
Definition apply_detection_threshold (data : DataFrame) (isotope_trigger : string)
    (threshold : Q) : M DataFrame :=
  match column_index isotope_trigger (columns data) with
  | None => raise (KeyError isotope_trigger)
  | Some j =>
      let data' := dropna (mkFrame (columns data)
                     (List.filter (fun r => fge (cell_at j r) threshold) (rows data))) in
      set_threshold_value threshold ;;;
      ret data'
  end.

(** [NatVsTech.conform_data_for_ML] *)
Definition conform_data_for_ML (training_df : DataFrame) (target_df : labels)
    : matrix * labels :=
  (as_matrix training_df, target_df).

(** [set(a) - set(b)] *)
Definition set_difference (a b : list string) : gset string :=
  list_to_set a ∖ list_to_set b.

(** The entries of [xs] whose column label is not in [drop]. *)
Fixpoint drop_cells {A} (drop : gset string) (cols : list string) (xs : list A) : list A :=
  match cols, xs with
  | c :: cols', x :: xs' =>
      if bool_decide (c ∈ drop) then drop_cells drop cols' xs'
      else x :: drop_cells drop cols' xs'
  | _, _ => xs
  end.

(** [df.drop(labels, axis=1)]: every label must be a column. *)
Definition drop_columns (df : DataFrame) (drop : gset string) : res DataFrame :=
  match List.filter (fun l => negb (existsb (String.eqb l) (columns df))) (elements drop) with
  | missing :: _ => Raise (ValueError "labels not contained in axis")
  | [] =>
      Ok (mkFrame (drop_cells drop (columns df) (columns df))
                  (map (fun r : row => (fst r, drop_cells drop (columns df) (snd r)))
                       (rows df)))
  end.

(** [NatVsTech.filter_noncritical_isotopes] *)
Definition filter_noncritical_isotopes (training_df : DataFrame)
    (critical_isotopes : list string) : res DataFrame :=
  drop_columns training_df (set_difference (columns training_df) critical_isotopes).

(** A pandas [Series]: one value per row, with the index label of the row. *)
Definition series := list (Z * float).

(** [NatVsTech.split_target_from_training_data]: [df[target_name]] and
    [df.drop(target_name, axis=1)]. *)
Definition split_target_from_training_data (df : DataFrame) (target_name : string)
    : res (DataFrame * series) :=
  match column_index target_name (columns df) with
  | None => Raise (KeyError target_name)
  | Some j =>
      let target_df : series := map (fun r : row => (fst r, cell_at j r)) (rows df) in
      match drop_columns df {[target_name]} with
      | Ok training_df => Ok (training_df, target_df)
      | Raise e => Raise e
      end
  end.

(** ** Stage selector *)

(** Float subtraction; NaN propagates. The difference is exact here, where
    numpy rounds it to a float64: nothing below depends on the values of the
    normalised scores, only on how many there are. *)
Definition fsub (a b : float) : float :=
  match a, b with
  | Some x, Some y => Some (x - y)%Q
  | _, _ => NaN
  end.

(** [a < b] on floats. *)
Definition flt (a b : float) : bool :=
  match a, b with
  | Some x, Some y => negb (Qle_bool y x)
  | _, _ => false
  end.

(** The scan of [np.argmin]: the first position of the least value; a NaN,
    once met, is the minimum. *)
Fixpoint argmin_scan (best : float) (best_i i : nat) (xs : list float) : nat :=
  match xs with
  | [] => best_i
  | x :: xs' =>
      if negb (notna best) then best_i
      else if negb (notna x) || flt x best then argmin_scan x i (S i) xs'
      else argmin_scan best best_i (S i) xs'
  end.

(** [np.argmin(xs)] *)
Definition argmin (xs : list float) : res nat :=
  match xs with
  | [] => Raise (ValueError "attempt to get argmin of an empty sequence")
  | x :: xs' => Ok (argmin_scan x 0 1 xs')
  end.

(** [np.zeros((n,))] *)
Definition zeros (n : Z) : res (list float) :=
  if n <? 0 then Raise (ValueError "negative dimensions are not allowed")
  else Ok (repeat (Some 0%Q) (Z.to_nat n)).

(** [np.arange(n)] *)
Definition arange (n : Z) : list Z := map Z.of_nat (seq 0 (Z.to_nat n)).

(** [xs[i]] *)
Definition index {A} (xs : list A) (i : nat) : res A :=
  match nth_error xs i with
  | Some x => Ok x
  | None => Raise IndexError
  end.

(** [score[i] = v] on an array of fixed length. *)
Definition setitem_array (score : list float) (i : nat) (v : float) : res (list float) :=
  if (i <? length score)%nat then Ok (<[i := v]> score) else Raise IndexError.

(** [params['n_estimators']], used as an integer. *)
Definition n_estimators_of (params : Params) : res Z :=
  match params !! "n_estimators" with
  | Some (PInt n) => Ok n
  | Some _ => Raise (TypeError "n_estimators is not an integer")
  | None => Raise (KeyError "n_estimators")
  end.

(** The nested [heldout_score] of [find_min_boosting_stages]. The classifier
    it fits is the object that [self.gbc_base] refers to. *)
Definition heldout_score (clf : Classifier) (X_test : matrix) (y_test : labels)
    (max_n_estimators : Z) : M (list float) :=
  clf' <- fit clf X_test y_test ;;
  set_gbc_base clf' ;;;
  score <- lift (zeros max_n_estimators) ;;
  match clf_model clf' with
  | None => raise NotFittedError
  | Some m =>
      let staged := gbc_staged_loss m X_test y_test in
      for_each (fun score (p : nat * float) => lift (setitem_array score (fst p) (snd p)))
               (combine (seq 0 (length staged)) staged) score
  end.

(** [NatVsTech.find_min_boosting_stages]; of the pair it returns, the
    instance is in the world and the stage index is the value. *)
Definition find_min_boosting_stages (training_df : DataFrame) (target_df : labels)
    (gbc_base_params : Params) : M Z :=
  let confomed_data := conform_data_for_ML training_df target_df in
  let gbc := GradientBoostingClassifier gbc_base_params in
  set_gbc_base gbc ;;;
  n <- lift (n_estimators_of gbc_base_params) ;;
  let x_range := arange (n + 1) in
  test_score <- heldout_score gbc (fst confomed_data) (snd confomed_data) n ;;
  first <- lift (index test_score 0) ;;
  let test_score := map (fun s => fsub s first) test_score in
  best <- lift (argmin test_score) ;;
  test_best_iter <- lift (index x_range best) ;;
  set_optimum_boosting_stages test_best_iter ;;;
  ret test_best_iter.

(** ** Hyper-parameter searcher *)

(** [NatVsTech.find_optimum_gbc_parameters]. The branch is taken when
    [self.optimum_boosting_stages] is truthy, that is non zero. *)
Definition find_optimum_gbc_parameters (crossfolds : Z) (training_df : DataFrame)
    (target_df : labels) (gbc_search_params : Grid) : M Classifier :=
  base <- getattr "gbc_base" gbc_base ;;
  let '(X, y) := conform_data_for_ML training_df target_df in
  best_params_ <- with_rng (grid_search (clf_params base) crossfolds gbc_search_params X y) ;;
  set_gbc_best_params best_params_ ;;;
  stages <- getattr "optimum_boosting_stages" optimum_boosting_stages ;;
  best <- (if stages =? 0 then ret best_params_
           else let merged := <["n_estimators" := PInt stages]> best_params_ in
                set_gbc_best_params merged ;;; ret merged) ;;
  let gbc_fitted := GradientBoostingClassifier best in
  ret gbc_fitted.

(** ** Inference applier *)

(** The default of the [threshold_value] parameter of
    [apply_detection_threshold]. *)
Definition default_threshold_value : Q := 0.

(** [len(np.where(xs <= t)[0])] *)
Definition count_le (xs : list float) (t : Q) : Z :=
  Z.of_nat (length (List.filter (fun c => fle c t) xs)).

(** [np.where(xs <= t)[0]] *)
Definition where_le (xs : list float) (t : Q) : list nat :=
  map fst (List.filter (fun p : nat * float => fle (snd p) t)
                       (combine (seq 0 (length xs)) xs)).

(** [list(xs).count(v)] *)
Definition count (xs : labels) (v : Z) : Z :=
  Z.of_nat (length (List.filter (Z.eqb v) xs)).

(** The four counts of the probability tracking (lines 193-197). *)
Record ProbaCounts := mkCounts {
  total_natural_by_proba : Z;
  total_technical_by_proba : Z;
  nat_above_thresh : Z;
  tech_above_thresh : Z
}.

Definition total_nat_above_proba_thresh (c : ProbaCounts) : Z :=
  total_natural_by_proba c - nat_above_thresh c.

Definition total_tech_above_proba_thresh (c : ProbaCounts) : Z :=
  total_technical_by_proba c - tech_above_thresh c.

(** The block under [if track_class_probabilities:]; an empty list is falsy. *)
Definition track_probabilities (class_proba : list (float * float))
    (track_class_probabilities : list Q) : M (option ProbaCounts) :=
  match track_class_probabilities with
  | [] => ret None
  | _ :: _ =>
      print (PrintWhere (where_le (map fst class_proba) 0.5)) ;;;
      let by_nat := count_le (map fst class_proba) 0.5 in
      let by_tech := count_le (map snd class_proba) 0.5 in
      t0 <- lift (index track_class_probabilities 0) ;;
      let above_nat := count_le (map fst class_proba) t0 in
      t1 <- lift (index track_class_probabilities 1) ;;
      let above_tech := count_le (map snd class_proba) t1 in
      ret (Some (mkCounts by_nat by_tech above_nat above_tech))
  end.

(** [df[name] = values]: a new last column, or the existing one replaced. *)
Definition set_column (df : DataFrame) (name : string) (values : list float)
    : res DataFrame :=
  if negb (length values =? length (rows df))%nat
  then Raise (ValueError "Length of values does not match length of index")
  else
    let put (r : row) (v : float) : row :=
      match column_index name (columns df) with
      | Some j => (fst r, <[j := v]> (snd r))
      | None => (fst r, (snd r ++ [v])%list)
      end in
    Ok (mkFrame (match column_index name (columns df) with
                 | Some _ => columns df
                 | None => (columns df ++ [name])%list
                 end)
                (map (fun p => put (fst p) (snd p)) (combine (rows df) values))).

(** ['/' is the first character of s] *)
Definition starts_with_sep (s : string) : bool :=
  match s with
  | String c _ => String.eqb (String c EmptyString) "/"
  | EmptyString => false
  end.

(** ['/' is the last character of s] *)
Fixpoint ends_with_sep (s : string) : bool :=
  match s with
  | EmptyString => false
  | String c rest =>
      match rest with
      | EmptyString => String.eqb (String c EmptyString) "/"
      | String _ _ => ends_with_sep rest
      end
  end.

(** One step of [os.path.join] (posix): a component that starts with the
    separator replaces what came before; no separator is added after an
    empty path or after one that ends with the separator. *)
Definition join_component (path b : string) : string :=
  if starts_with_sep b then b
  else if String.eqb path "" || ends_with_sep path then path ++ b
  else path ++ "/" ++ b.

(** [os.path.join(a, *p)] *)
Definition path_join (a : string) (p : list string) : string :=
  fold_left join_component p a.

(** [s[:-4]] *)
Definition drop_last4 (s : string) : string :=
  substring 0 (String.length s - 4) s.

(** Lines 159-170: the conditioning of one run. *)
Definition condition_run (test_data : DataFrame) (isotope_trigger : string)
    (filter_neg apply_threshold : bool) (critical_isotopes : option (list string))
    : M DataFrame :=
  let test_data := if filter_neg then filter_negative test_data else test_data in
  test_data <- (if apply_threshold
                then apply_detection_threshold test_data isotope_trigger
                                               default_threshold_value
                else ret test_data) ;;
  match critical_isotopes with
  | Some ((_ :: _) as critical) =>
      s <- get_self ;;
      let non_crit_isotopes := set_difference (py_list (training_data s)) critical in
      lift (drop_columns test_data non_crit_isotopes)
  | _ => ret test_data
  end.

(** The local variables of one iteration of the loop over the run files. *)
Record RunLocals := mkRun {
  X_test_preserved : DataFrame;
  X_test : matrix;
  X_test_predicted : labels;
  X_test_predicted_proba : list (float * float);
  proba_counts : option ProbaCounts;
  X_test_data : option SummaryRow
}.

(** Lines 150-223: one iteration of the loop of
    [apply_trained_classification]. [gbc] is what [gbc_fitted.fit] returned. *)
Definition classify_run (gbc : option Classifier)
    (output_summary_data_path output_summary_base_name : string)
    (track_class_probabilities : list Q) (isotope_trigger : string)
    (filter_neg apply_threshold : bool) (critical_isotopes : option (list string))
    (track_particle_counts : bool) (test : string * DataFrame) : M RunLocals :=
  let run_name := fst test in
  let test_data := reset_index (snd test) in
  test_data <- condition_run test_data isotope_trigger filter_neg apply_threshold
                             critical_isotopes ;;
  let X_test_preserved := test_data in
  let X_test := as_matrix test_data in
  gbc <- match gbc with
         | Some c => ret c
         | None => raise (AttributeError "predict")
         end ;;
  X_test_predicted <- predict gbc X_test ;;
  X_test_predicted_proba <- predict_proba gbc X_test ;;
  counts <- track_probabilities X_test_predicted_proba track_class_probabilities ;;
  if track_particle_counts then
    let X_test_nat_count := inject_Z (count X_test_predicted 1) in
    let X_test_tec_count := inject_Z (count X_test_predicted 0) in
    let X_test_data :=
      mkRow run_name (X_test_nat_count + X_test_tec_count)%Q
            X_test_nat_count X_test_tec_count
            (option_map total_nat_above_proba_thresh counts)
            (option_map total_tech_above_proba_thresh counts) in
    X_test_preserved <- lift (set_column X_test_preserved "natural_class_proba"
                                         (map snd X_test_predicted_proba)) ;;
    to_csv (path_join output_summary_data_path
                      ["filtered_data";
                       "filtered_" ++ drop_last4 run_name ++ output_summary_base_name])
           (CsvFrame X_test_preserved) ;;;
    ret (mkRun X_test_preserved X_test X_test_predicted X_test_predicted_proba
               counts (Some X_test_data))
  else
    ret (mkRun X_test_preserved X_test X_test_predicted X_test_predicted_proba
               counts None).

(** The three accumulators of [apply_trained_classification]. *)
Record Tracks := mkTracks {
  X_test_predicted_track : list labels;
  X_test_predicted_proba_track : list (list (float * float));
  X_test_data_track : list SummaryRow
}.

Definition track_run (t : Tracks) (l : RunLocals) : Tracks :=
  mkTracks (X_test_predicted_track t ++ [X_test_predicted l])%list
           (X_test_predicted_proba_track t ++ [X_test_predicted_proba l])%list
           (match X_test_data l with
            | Some r => (X_test_data_track t ++ [r])%list
            | None => X_test_data_track t
            end).

(** [NatVsTech.apply_trained_classification]. [test_files] are the csv files
    that [glob] finds in [test_data_path], in its order, as [read_csv] parses
    them. [fit] of the plain classifier returns the object, that of the
    subclass with [coef_] returns [None]. *)
Definition apply_trained_classification (test_files : list (string * DataFrame))
    (output_summary_data_path output_summary_base_name : string)
    (gbc_fitted : Classifier) (track_class_probabilities : list Q)
    (isotope_trigger : string) (training_df : DataFrame) (target_df : labels)
    (filter_neg apply_threshold : bool) (critical_isotopes : option (list string))
    (track_particle_counts : bool) : M (list SummaryRow) :=
  let '(X, y) := conform_data_for_ML training_df target_df in
  fitted <- fit gbc_fitted X y ;;
  let gbc := if clf_with_coef fitted then None else Some fitted in
  tracks <- for_each
              (fun t test =>
                 l <- classify_run gbc output_summary_data_path output_summary_base_name
                                   track_class_probabilities isotope_trigger filter_neg
                                   apply_threshold critical_isotopes track_particle_counts
                                   test ;;
                 ret (track_run t l))
              test_files (mkTracks [] [] []) ;;
  to_csv (path_join output_summary_data_path ["data_summaries"; output_summary_base_name])
         (CsvSummary (X_test_data_track tracks)) ;;;
  ret (X_test_data_track tracks).

(** ** Feature eliminator *)

(** [X[idx]]: the rows at the given positions. *)
Fixpoint take_rows {A} (X : list A) (idx : list nat) : res (list A) :=
  match idx with
  | [] => Ok []
  | i :: idx' =>
      match nth_error X i, take_rows X idx' with
      | Some x, Ok xs => Ok (x :: xs)
      | None, _ => Raise IndexError
      | _, Raise e => Raise e
      end
  end.

(** The entries of [xs] at the true positions of [mask]. *)
Definition select {A} (mask : list bool) (xs : list A) : list A :=
  map snd (List.filter fst (combine mask xs)).

(** A fitted [RFECV] object. *)
Record RFECV := mkRFECV {
  estimator : Classifier;
  support_ : list bool;
  ranking_ : list Z;
  grid_scores_ : list float;
  n_features_ : Z;
  estimator_ : Classifier
}.

(** [rfecv.transform(X)]: the columns of the support; the width of [X] must
    be the one seen when fitting. *)
Definition transform (support : list bool) (X : matrix) : res matrix :=
  if forallb (fun r => (length r =? length support)%nat) X
  then Ok (map (select support) X)
  else Raise (ValueError "X has a different shape than during fitting").

(** [sklearn.base.clone]: same class and parameters, not fitted. *)
Definition clone (c : Classifier) : Classifier :=
  mkClf (clf_with_coef c) (clf_params c) None.

(** [RFECV(estimator, step=1, cv, scoring='f1_weighted').fit(X, y)]: the
    elimination ranks the features on clones of the estimator; then a fresh
    clone is fitted on the retained columns and kept as [estimator_]. The
    estimator object itself is left as it was. *)
Definition rfecv_fit (est : Classifier) (cv : Z) (X : matrix) (y : labels) : M RFECV :=
  sel <- with_rng (rfe_select (clf_with_coef est) (clf_params est) cv X y) ;;
  let '(support, ranking, grid_scores) := sel in
  X_r <- lift (transform support X) ;;
  final <- fit (clone est) X_r y ;;
  ret (mkRFECV est support ranking grid_scores
               (Z.of_nat (length (List.filter id support))) final).

(** [rfecv.predict(X)]: [estimator_.predict(transform(X))] *)
Definition rfecv_predict (r : RFECV) (X : matrix) : M labels :=
  X_r <- lift (transform (support_ r) X) ;;
  predict (estimator_ r) X_r.

(** What [find_optimum_gbc_parameters] hands back is a classifier object,
    not a dictionary; item assignment and keyword unpacking tell the two
    apart. *)
Inductive pyobj :=
| ObjDict (d : Params)
| ObjClassifier (c : Classifier).

(** [obj[key] = value] *)
Definition setitem (obj : pyobj) (key : string) (value : pyval) : res pyobj :=
  match obj with
  | ObjDict d => Ok (ObjDict (<[key := value]> d))
  | ObjClassifier _ => Raise (TypeError "object does not support item assignment")
  end.

(** The keywords of a call that unpacks [obj] with two stars. *)
Definition keywords (obj : pyobj) : res Params :=
  match obj with
  | ObjDict d => Ok d
  | ObjClassifier _ => Raise (TypeError "argument after ** must be a mapping")
  end.

(** An accumulating frame: its rows with their index labels. *)
Definition frame (A : Type) : Type := list (Z * A).

(** [pd.DataFrame([x])]: one row, labelled 0. *)
Definition one_row {A} (x : A) : frame A := [(0, x)].

(** [pd.DataFrame(xs)] of a flat list: one row per element. *)
Definition one_column {A} (xs : list A) : frame A :=
  combine (arange (Z.of_nat (length xs))) xs.

(** The variables of [rfecv_feature_identify] that live across the splits.
    [gbc_init_params] is the dictionary of the caller, updated in place. *)
Record RfecvLocals := mkLocals {
  nameListAll : frame string;
  optimumLengthAll : frame Z;
  classScoreAll : frame float;
  classScoreAll2 : frame float;
  classScoreAll3 : frame float;
  featureImportancesAll : frame (list float);
  rfecvGridScoresAll : frame (list float);
  gbc_init_params : Params;
  gbc : Classifier;
  run : Z
}.

(** The variables that one pass of the loop body binds. *)
Record SplitLocals := mkSplit {
  X_train : matrix;
  X_holdout : matrix;
  y_train : labels;
  y_holdout : labels;
  optimun_boosting_stages : option Z;
  rfecv : RFECV;
  supPort : list bool;
  possParams : list Z;
  nameList : list string;
  X_trimTrainSet : matrix;
  X_trimHoldoutSet : matrix;
  gbc_refit : Classifier;
  holdout_preds : labels;
  rfc_all_f1 : float;
  rfc_all_f2 : float;
  rfc_all_f3 : float;
  refinedFeatureImportances : list float
}.

(** Lines 333-337: the names at the true positions of the mask. *)
Fixpoint name_loop (featureSetIDs : list bool) (feature_names : list string)
    (i : nat) (nameList : list string) : res (list string) :=
  match featureSetIDs with
  | [] => Ok nameList
  | b :: rest =>
      if b then
        match nth_error feature_names i with
        | Some name => name_loop rest feature_names (S i) (nameList ++ [name])%list
        | None => Raise IndexError
        end
      else name_loop rest feature_names (S i) nameList
  end.

(** Lines 280-298: the optional re-optimisation at the head of the loop
    body. It is given the frames of the whole data set. *)
Definition reoptimize (training_df : DataFrame) (target_df : labels)
    (cv_grid_search find_min_boosting_stages_flag : bool) (gbc_grid_params : Grid)
    (st : RfecvLocals) : M (RfecvLocals * option Z) :=
  r <- (if find_min_boosting_stages_flag then
          stages <- find_min_boosting_stages training_df target_df (gbc_init_params st) ;;
          print (PrintStages stages) ;;;
          ret (mkLocals (nameListAll st) (optimumLengthAll st) (classScoreAll st)
                        (classScoreAll2 st) (classScoreAll3 st) (featureImportancesAll st)
                        (rfecvGridScoresAll st)
                        (<["n_estimators" := PInt stages]> (gbc_init_params st))
                        (gbc st) (run st),
               Some stages)
        else ret (st, None)) ;;
  let '(st, optimun) := r in
  if cv_grid_search then
    found <- find_optimum_gbc_parameters 5 training_df target_df gbc_grid_params ;;
    let gbc_grid_fitted_params := ObjClassifier found in
    gbc_grid_fitted_params <-
      match optimun with
      | Some stages => lift (setitem gbc_grid_fitted_params "n_estimators" (PInt stages))
      | None => ret gbc_grid_fitted_params
      end ;;
    kw <- lift (keywords gbc_grid_fitted_params) ;;
    ret (mkLocals (nameListAll st) (optimumLengthAll st) (classScoreAll st)
                  (classScoreAll2 st) (classScoreAll3 st) (featureImportancesAll st)
                  (rfecvGridScoresAll st) (gbc_init_params st)
                  (GradientBoostingClassifierrWithCoef kw) (run st),
         optimun)
  else ret (st, optimun).

(** Lines 273-375: the body of the loop over the splits. *)
Definition rfecv_split (training_df : DataFrame) (target_df : labels)
    (X_all : matrix) (y_all : labels) (n_splits : Z) (cv_grid_search : bool)
    (kfolds : Z) (gbc_grid_params : Grid) (find_min_boosting_stages_flag : bool)
    (feature_names : list string)
    (st : RfecvLocals) (split : list nat * list nat) : M (RfecvLocals * SplitLocals) :=
  let '(train_index, test_index) := split in
  X_train <- lift (take_rows X_all train_index) ;;
  X_holdout <- lift (take_rows X_all test_index) ;;
  y_train <- lift (take_rows y_all train_index) ;;
  y_holdout <- lift (take_rows y_all test_index) ;;
  let run := run st + 1 in
  print (PrintRun run n_splits) ;;;
  r <- reoptimize training_df target_df cv_grid_search find_min_boosting_stages_flag
                  gbc_grid_params st ;;
  let '(st, optimun) := r in
  rfecv <- rfecv_fit (gbc st) kfolds X_train y_train ;;
  let rfecvGridScoresAll := (rfecvGridScoresAll st ++ one_row (grid_scores_ rfecv))%list in
  let supPort := support_ rfecv in
  let possParams := ranking_ rfecv in
  let optimumLengthAll := (optimumLengthAll st ++ one_row (n_features_ rfecv))%list in
  let featureSetIDs := supPort in
  nameList <- lift (name_loop featureSetIDs feature_names 0 []) ;;
  let nameListAll := (nameListAll st ++ one_column nameList)%list in
  X_trimTrainSet <- lift (transform (support_ rfecv) X_train) ;;
  X_trimHoldoutSet <- lift (transform (support_ rfecv) X_holdout) ;;
  gbc <- fit (gbc st) X_trimTrainSet y_train ;;
  holdout_preds <- rfecv_predict rfecv X_holdout ;;
  rfc_all_f1 <- lift (f1_weighted y_holdout holdout_preds) ;;
  rfc_all_f2 <- lift (r2_score y_holdout holdout_preds) ;;
  rfc_all_f3 <- lift (mean_absolute_error y_holdout holdout_preds) ;;
  let classScoreAll := (classScoreAll st ++ one_row rfc_all_f1)%list in
  let classScoreAll2 := (classScoreAll2 st ++ one_row rfc_all_f2)%list in
  let classScoreAll3 := (classScoreAll3 st ++ one_row rfc_all_f3)%list in
  refinedFeatureImportances <- feature_importances_ gbc ;;
  let featureImportancesAll :=
    (featureImportancesAll st ++ one_row refinedFeatureImportances)%list in
  ret (mkLocals nameListAll optimumLengthAll classScoreAll classScoreAll2 classScoreAll3
                featureImportancesAll rfecvGridScoresAll (gbc_init_params st) gbc run,
       mkSplit X_train X_holdout y_train y_holdout optimun rfecv supPort possParams
               nameList X_trimTrainSet X_trimHoldoutSet gbc holdout_preds
               rfc_all_f1 rfc_all_f2 rfc_all_f3 refinedFeatureImportances).

(** [NatVsTech.rfecv_feature_identify]. The python function ends without a
    [return]: the value here is the state of its local variables when the
    loop is over, of which the caller sees the update of [gbc_init_params]
    and what was printed. *)
Definition rfecv_feature_identify (training_df : DataFrame) (target_df : labels)
    (n_splits : Z) (test_size : Q) (random_state : Z) (cv_grid_search : bool)
    (gbc_init_params : Params) (kfolds : Z) (gbc_grid_params : Grid)
    (find_min_boosting_stages_flag : bool) : M RfecvLocals :=
  let feature_names := columns training_df in
  let '(X_all, y_all) := conform_data_for_ML training_df target_df in
  splits <- lift (sss_split n_splits test_size random_state X_all y_all) ;;
  let gbc := GradientBoostingClassifierrWithCoef gbc_init_params in
  for_each (fun st split =>
              r <- rfecv_split training_df target_df X_all y_all n_splits cv_grid_search
                               kfolds gbc_grid_params find_min_boosting_stages_flag
                               feature_names st split ;;
              ret (fst r))
           splits
           (mkLocals [] [] [] [] [] [] [] gbc_init_params gbc 0).

End NatVsTech.

Arguments getattr {sk A} name f.

(** ** Predicates used in the statements *)

(** A cell that holds a number, and that number is not negative. *)
Definition nonneg_cell (c : float) : Prop := exists q : Q, c = Some q /\ (0 <= q)%Q.

(** Every row has one cell per column, as in any frame that pandas builds. *)
Definition rectangular (df : DataFrame) : Prop :=
  Forall (fun r : row => length (snd r) = length (columns df)) (rows df).

Definition is_some {A} (o : option A) : bool :=
  match o with
  | Some _ => true
  | None => false
  end.

Section Statements.
Context {sk : Sklearn}.


(** The partitions of a split record are the rows of its index sets. *)
Definition of_split (X_all : matrix) (y_all : labels) (split : list nat * list nat)
    (l : SplitLocals) : Prop :=
  take_rows X_all (fst split) = Ok (X_train l)
  /\ take_rows X_all (snd split) = Ok (X_holdout l)
  /\ take_rows y_all (fst split) = Ok (y_train l)
  /\ take_rows y_all (snd split) = Ok (y_holdout l).

(** The passes of a loop that ran to its end over [splits]: the record of
    each pass is the one the loop body returned for that split, from the
    state and the interpreter the pass before left. *)
Inductive passes (body : RfecvLocals -> list nat * list nat -> M (RfecvLocals * SplitLocals))
  : list (list nat * list nat) -> RfecvLocals -> World ->
    list SplitLocals -> RfecvLocals -> World -> Prop :=
| passes_nil (st : RfecvLocals) (w : World) : passes body [] st w [] st w
| passes_cons split splits st w st1 l w1 ls st2 w2 :
    body st split w = (Ok (st1, l), w1) ->
    passes body splits st1 w1 ls st2 w2 ->
    passes body (split :: splits) st w (l :: ls) st2 w2.

(** The accumulators of two states agree. *)
Definition same_aggregates (a b : RfecvLocals) : Prop :=
  nameListAll a = nameListAll b
  /\ optimumLengthAll a = optimumLengthAll b
  /\ classScoreAll a = classScoreAll b
  /\ classScoreAll2 a = classScoreAll2 b
  /\ classScoreAll3 a = classScoreAll3 b
  /\ featureImportancesAll a = featureImportancesAll b
  /\ rfecvGridScoresAll a = rfecvGridScoresAll b.

(** The state [st'] holds what [st] held, followed by the records [ls] in
    their order: one row per record in six collections, one row per retained
    name in [nameListAll]. *)
Definition extended_by (st st' : RfecvLocals) (ls : list SplitLocals) : Prop :=
  nameListAll st' = (nameListAll st ++ concat (map (fun l => one_column (nameList l)) ls))%list
  /\ optimumLengthAll st'
     = (optimumLengthAll st ++ map (fun l => (0, n_features_ (rfecv l))) ls)%list
  /\ classScoreAll st' = (classScoreAll st ++ map (fun l => (0, rfc_all_f1 l)) ls)%list
  /\ classScoreAll2 st' = (classScoreAll2 st ++ map (fun l => (0, rfc_all_f2 l)) ls)%list
  /\ classScoreAll3 st' = (classScoreAll3 st ++ map (fun l => (0, rfc_all_f3 l)) ls)%list
  /\ featureImportancesAll st'
     = (featureImportancesAll st ++ map (fun l => (0, refinedFeatureImportances l)) ls)%list
  /\ rfecvGridScoresAll st'
     = (rfecvGridScoresAll st ++ map (fun l => (0, grid_scores_ (rfecv l))) ls)%list.

(** The names of a record are as many as the true entries of its mask, and
    that number is the retained-feature count. *)
Definition names_match_mask (l : SplitLocals) : Prop :=
  length (nameList l) = length (List.filter id (supPort l))
  /\ n_features_ (rfecv l) = Z.of_nat (length (nameList l)).

(** What a computation returned, if it did not raise. *)
Definition returned {A} (r : res A * World) : option A :=
  match fst r with
  | Ok a => Some a
  | Raise _ => None
  end.

End Statements.

(** ** A small classifier to run the methods on

    A decision stump on the first channel stands in for scikit-learn where a
    method has to be run on concrete data. Without a [random_state] keyword
    its fit draws a seed from the global random state and advances it, as a
    stochastic gradient boosting fit does; with one, the fit is a function of
    its arguments. An odd seed flips the stump. *)
Module Stump.

Record stump := mkStump {
  m_params : Params;
  m_width : nat;
  m_rows : nat;
  m_seed : nat
}.

Definition width (X : matrix) : nat :=
  match X with
  | [] => 0%nat
  | r :: _ => length r
  end.

Definition invalid_stages (params : Params) : bool :=
  match params !! "n_estimators" with
  | Some (PInt n) => n <=? 0
  | _ => false
  end.

Definition stump_fit (params : Params) (X : matrix) (y : labels) (g : nat)
    : res stump * nat :=
  if negb (length X =? length y)%nat
  then (Raise (ValueError "inconsistent numbers of samples"), g)
  else if (length X =? 0)%nat
  then (Raise (ValueError "Found array with 0 sample(s)"), g)
  else if invalid_stages params
  then (Raise (ValueError "n_estimators must be greater than 0"), g)
  else
    match params !! "random_state" with
    | Some (PInt seed) => (Ok (mkStump params (width X) (length X) (Z.to_nat seed)), g)
    | _ => (Ok (mkStump params (width X) (length X) g), S g)
    end.

Definition stump_label (m : stump) (r : list float) : Z :=
  let high := match r with
              | c :: _ => fge c 1
              | [] => false
              end in
  if xorb high (Nat.odd (m_seed m)) then 1 else 0.

Definition check_width {A} (m : stump) (X : matrix) (a : A) : res A :=
  if forallb (fun r => (length r =? m_width m)%nat) X
  then Ok a
  else Raise (ValueError "Number of features of the model must match the input").

Definition stump_predict (m : stump) (X : matrix) : res labels :=
  check_width m X (map (stump_label m) X).

Definition stump_predict_proba (m : stump) (X : matrix) : res (list (float * float)) :=
  check_width m X
    (map (fun r => if stump_label m r =? 1
                   then (Some 0.2%Q, Some 0.8%Q)
                   else (Some 0.7%Q, Some 0.3%Q)) X).

Definition stump_importances (m : stump) : list float :=
  repeat (Some (1 # Pos.of_nat (m_width m))) (m_width m).

(** The loss after stage [i] is the distance of [i + 1] to the number of
    rows: the more data, the later the minimum. *)
Definition stump_staged_loss (m : stump) (X : matrix) (y : labels) : list float :=
  match m_params m !! "n_estimators" with
  | Some (PInt n) =>
      map (fun i => Some (inject_Z (Z.abs (Z.of_nat (length X) - (Z.of_nat i + 1)))))
          (seq 0 (Z.to_nat n))
  | _ => []
  end.

(** The first candidate of every entry of the grid. *)
Definition first_candidates (grid : Grid) : Params :=
  omap head grid.

Definition stump_grid_search (params : Params) (cv : Z) (grid : Grid) (X : matrix)
    (y : labels) (g : nat) : res Params * nat :=
  (Ok (first_candidates grid), g).

(** Split [i] holds out row [i] (modulo the number of rows). *)
Definition leave_one_out (n i : nat) : list nat * list nat :=
  (List.filter (fun j => negb (j =? i mod n)%nat) (seq 0 n), [(i mod n)%nat]).

Definition stump_split (n_splits : Z) (test_size : Q) (random_state : Z) (X : matrix)
    (y : labels) : res (list (list nat * list nat)) :=
  if (length X <? 2)%nat
  then Raise (ValueError "The least populated class has too few members")
  else Ok (map (leave_one_out (length X)) (seq 0 (Z.to_nat n_splits))).

(** Keeps the channels at even positions. *)
Definition stump_rfe (with_coef : bool) (params : Params) (cv : Z) (X : matrix)
    (y : labels) (g : nat) : res (list bool * list Z * list float) * nat :=
  if with_coef
  then (Ok (map Nat.even (seq 0 (width X)),
            map (fun j => if Nat.even j then 1 else 2) (seq 0 (width X)),
            repeat (Some 1%Q) (width X)), g)
  else (Raise (AttributeError "coef_"), g).

Definition mismatches (y_true y_pred : labels) : Z :=
  Z.of_nat (length (List.filter (fun p : Z * Z => negb (fst p =? snd p))
                                (combine y_true y_pred))).

(** The share of agreeing labels stands in for the three scores. *)
Definition agreement (y_true y_pred : labels) : res float :=
  if negb (length y_true =? length y_pred)%nat
  then Raise (ValueError "inconsistent numbers of samples")
  else if (length y_true =? 0)%nat
  then Raise (ValueError "Found array with 0 sample(s)")
  else Ok (Some (1 - (mismatches y_true y_pred # Pos.of_nat (length y_true)))%Q).

Definition disagreement (y_true y_pred : labels) : res float :=
  if negb (length y_true =? length y_pred)%nat
  then Raise (ValueError "inconsistent numbers of samples")
  else if (length y_true =? 0)%nat
  then Raise (ValueError "Found array with 0 sample(s)")
  else Ok (Some (mismatches y_true y_pred # Pos.of_nat (length y_true))).

#[export] Instance sklearn : Sklearn := {|
  rng := nat;
  model := stump;
  gbc_fit := stump_fit;
  gbc_predict := stump_predict;
  gbc_predict_proba := stump_predict_proba;
  gbc_feature_importances := stump_importances;
  gbc_staged_loss := stump_staged_loss;
  grid_search := stump_grid_search;
  sss_split := stump_split;
  rfe_select := stump_rfe;
  f1_weighted := agreement;
  r2_score := agreement;
  mean_absolute_error := disagreement
|}.

(** A fresh interpreter: a default instance, nothing printed or written. *)
Definition world0 : World :=
  mkWorld init_default 0%nat [] [].

End Stump.

(** ** Sample data

    Four particles on three channels, with their classes; runs to classify;
    and the keyword dictionaries used with the stump. *)
Module Examples.
Import Stump.

Definition cell (z : Z) : float := Some (inject_Z z).

Definition train4 : DataFrame :=
  mkFrame ["140Ce"; "139La"; "88Sr"]
          [ (0, [cell 5; cell 1; cell 2]);
            (1, [cell 0; cell 3; cell 1]);
            (2, [cell 7; cell 2; cell 2]);
            (3, [cell 0; cell 0; cell 4]) ].

Definition target4 : labels := [1; 0; 1; 0].

(** No [random_state]: every fit draws from the global random state. *)
Definition params5 : Params := {["n_estimators" := PInt 5]}.

Definition grid_depth : Grid := {["max_depth" := [PInt 3; PInt 5]]}.

(** The locals of [rfecv_feature_identify] when its loop starts. *)
Definition locals0 : RfecvLocals :=
  mkLocals [] [] [] [] [] [] [] params5 (GradientBoostingClassifierrWithCoef params5) 0.

(** The first split of [train4]: row 0 is held out. *)
Definition split0 : list nat * list nat := ([1; 2; 3]%nat, [0%nat]).


(** A single boosting stage: the only stage index there is, is 0. *)
Definition params1 : Params := {["n_estimators" := PInt 1]}.

(** A run whose channels are not those of [train4]: it lacks 88Sr and has
    208Pb; one reading is negative and one is missing. *)
Definition run_other : DataFrame :=
  mkFrame ["140Ce"; "139La"; "208Pb"]
          [ (10, [cell 3; cell 1; cell 2]);
            (11, [cell 0; cell 3; cell (-1)]);
            (12, [cell 7; NaN; cell 2]);
            (13, [cell 0; cell 0; cell 4]);
            (14, [cell 9; cell 1; cell 4]) ].

(** [run_other] after the negative filter and the threshold. *)
Definition run_other_conditioned : DataFrame :=
  mkFrame ["140Ce"; "139La"; "208Pb"]
          [ (0, [cell 3; cell 1; cell 2]);
            (3, [cell 0; cell 0; cell 4]);
            (4, [cell 9; cell 1; cell 4]) ].

(** A run with trigger values 3 and 7. *)
Definition run_low : DataFrame :=
  mkFrame ["140Ce"; "139La"; "88Sr"]
          [ (0, [cell 3; cell 1; cell 2]);
            (1, [cell 7; cell 2; cell 2]) ].

(** The interpreter after [apply_detection_threshold(train4, '140Ce', 5)]:
    the instance has recorded the threshold 5. *)
Definition world_threshold5 : World :=
  snd (apply_detection_threshold train4 "140Ce" 5 world0).

(** The interpreter after [find_min_boosting_stages] on [train4]: the
    stage index on the instance is 3. *)
Definition world_stages3 : World :=
  snd (find_min_boosting_stages train4 target4 params5 world0).

(** The interpreter after [find_min_boosting_stages] on [train4] with a
    single stage: the stage index on the instance is 0. *)
Definition world_stages0 : World :=
  snd (find_min_boosting_stages train4 target4 params1 world0).

(** The interpreter once the negative filter and the threshold have run on
    a default instance. *)
Definition world_conditioned : World :=
  mkWorld (mkNvT (PyList []) (PyList []) "output_summary.csv" (Some 0%Q) None None None)
          0%nat [] [].

(** The stump fitted on [train4] with seed 0. *)
Definition stump4 : stump := mkStump params5 3 4 0.

(** The plain classifier with the keywords [params5], in that fitted state. *)
Definition classifier4 : Classifier := @mkClf sklearn false params5 (Some stump4).

(** [train4] with its class column, as read from a labelled file. *)
Definition labelled4 : DataFrame :=
  mkFrame ["140Ce"; "139La"; "classification"; "88Sr"]
          [ (0, [cell 5; cell 1; cell 1; cell 2]);
            (1, [cell 0; cell 3; cell 0; cell 1]);
            (2, [cell 7; cell 2; cell 1; cell 2]);
            (3, [cell 0; cell 0; cell 0; cell 4]) ].

(** Two run files. *)
Definition two_runs : list (string * DataFrame) :=
  [("first.csv", run_other); ("second.csv", run_low)].

End Examples.

(** ** Properties of [filter_negative] *)

Lemma fge_notna c t : fge c t = true -> notna c = true.
Proof. destruct c; simpl; congruence. Qed.

Lemma fge0_nonneg c : fge c 0 = true -> nonneg_cell c.
Proof.
  destruct c as [q|]; simpl; [|discriminate].
  intros H. exists q. split; [reflexivity|]. now apply Qle_bool_iff.
Qed.

Lemma masked_row_notna (cs : list float) :
  forallb notna (map (fun c => if fge c 0 then c else NaN) cs)
  = forallb (fun c => fge c 0) cs.
Proof.
  induction cs as [|c cs IH]; simpl; [reflexivity|].
  rewrite IH. destruct (fge c 0) eqn:E; simpl; [|reflexivity].
  now rewrite (fge_notna _ _ E).
Qed.

Lemma masked_row_id (cs : list float) :
  forallb (fun c => fge c 0) cs = true ->
  map (fun c => if fge c 0 then c else NaN) cs = cs.
Proof.
  induction cs as [|c cs IH]; simpl; [reflexivity|].
  intros H. apply andb_prop in H as [Hc Hcs].
  rewrite Hc, (IH Hcs). reflexivity.
Qed.

(** The two pandas steps amount to one filter on the original rows. *)
Lemma filter_negative_rows (data : DataFrame) :
  rows (filter_negative data)
  = List.filter (fun r : row => forallb (fun c => fge c 0) (snd r)) (rows data).
Proof.
  unfold filter_negative, dropna, where_ge0; simpl.
  induction (rows data) as [|r rs IH]; simpl; [reflexivity|].
  rewrite masked_row_notna.
  destruct (forallb (fun c => fge c 0) (snd r)) eqn:E.
  - rewrite (masked_row_id _ E), IH. now destruct r.
  - exact IH.
Qed.

Lemma filter_negative_columns (data : DataFrame) :
  columns (filter_negative data) = columns data.
Proof. reflexivity. Qed.

Lemma frame_eq (a b : DataFrame) :
  columns a = columns b -> rows a = rows b -> a = b.
Proof. destruct a, b; simpl; intros -> ->; reflexivity. Qed.

Lemma list_filter_sublist {A} (f : A -> bool) (l : list A) :
  sublist (List.filter f l) l.
Proof.
  induction l as [|x l IH]; simpl; [constructor|].
  destruct (f x); now constructor.
Qed.

Lemma list_filter_idem {A} (f : A -> bool) (l : list A) :
  List.filter f (List.filter f l) = List.filter f l.
Proof.
  induction l as [|x l IH]; simpl; [reflexivity|].
  destruct (f x) eqn:E; simpl; [rewrite E, IH|]; auto.
Qed.

(** C9. For every table [T], [filter_negative T] holds no negative (and no
    missing) value, its rows are rows of [T] in their original order and
    with their index labels, and filtering a second time changes nothing. *)
Theorem filter_negative_sound_subset_idempotent (T : DataFrame) :
  Forall (fun r : row => Forall nonneg_cell (snd r)) (rows (filter_negative T))
  /\ sublist (rows (filter_negative T)) (rows T)
  /\ filter_negative (filter_negative T) = filter_negative T.
Proof.
  split; [|split].
  - rewrite filter_negative_rows. apply List.Forall_forall.
    intros r Hr. apply List.filter_In in Hr as [_ Hr].
    apply List.Forall_forall. intros c Hc.
    apply fge0_nonneg.
    rewrite forallb_forall in Hr. now apply Hr.
  - rewrite filter_negative_rows. apply list_filter_sublist.
  - apply frame_eq; [reflexivity|].
    rewrite !filter_negative_rows. apply list_filter_idem.
Qed.

(** ** Reasoning about computations in [M] *)

Section Properties.
Context {sk : Sklearn}.

Lemma bind_ok {A B} (m : M A) (k : A -> M B) w b w' :
  bind m k w = (Ok b, w') ->
  exists a w1, m w = (Ok a, w1) /\ k a w1 = (Ok b, w').
Proof.
  unfold bind. destruct (m w) as [[a|e] w1]; intros H.
  - exists a, w1. split; [reflexivity|exact H].
  - discriminate.
Qed.

Lemma bind_eq {A B} (m : M A) (k : A -> M B) w a w1 :
  m w = (Ok a, w1) -> bind m k w = k a w1.
Proof. unfold bind. intros ->. reflexivity. Qed.

Lemma ret_ok {A} (a b : A) w w' : ret a w = (Ok b, w') -> a = b /\ w = w'.
Proof. unfold ret. intros H. inversion H. split; reflexivity. Qed.

Lemma lift_ok {A} (r : res A) (a : A) w w' : lift r w = (Ok a, w') -> r = Ok a /\ w = w'.
Proof. unfold lift. intros H. inversion H. split; reflexivity. Qed.

Lemma raise_ok {A} e (a : A) w w' : raise e w = (Ok a, w') -> False.
Proof. unfold raise. discriminate. Qed.


(** ** The critical-isotope restriction *)

Lemma threshold_keeps_training_data data trig t w out w' :
  apply_detection_threshold data trig t w = (Ok out, w') ->
  training_data (self w') = training_data (self w).
Proof.
  unfold apply_detection_threshold.
  destruct (column_index trig (columns data)); intros H; [|now apply raise_ok in H].
  apply bind_ok in H as (u & w1 & H1 & H2).
  apply ret_ok in H2 as [_ <-].
  unfold set_threshold_value, bind, get_self, set_self in H1.
  inversion H1; subst. reflexivity.
Qed.

Lemma drop_cells_columns (drop : gset string) (cols : list string) (col : string) :
  col ∈ drop_cells drop cols cols <-> col ∈ cols /\ col ∉ drop.
Proof.
  induction cols as [|c cols IH]; simpl.
  - split; [intros H; inversion H|intros [H _]; inversion H].
  - case_bool_decide as Hc.
    + rewrite IH. rewrite elem_of_cons. split.
      * intros [H1 H2]. split; [right|]; assumption.
      * intros [[->|H1] H2]; [contradiction|split; assumption].
    + rewrite !elem_of_cons, IH. split.
      * intros [->|[H1 H2]]; [split; [left; reflexivity|assumption]|].
        split; [right|]; assumption.
      * intros [[->|H1] H2]; [left; reflexivity|right; split; assumption].
Qed.

Lemma drop_cells_nothing {A} (cols : list string) (xs : list A) :
  drop_cells ∅ cols xs = xs.
Proof.
  revert xs. induction cols as [|c cols IH]; intros [|x xs]; simpl; try reflexivity.
  case_bool_decide as Hc; [set_solver|]. now rewrite IH.
Qed.

Lemma drop_columns_nothing (df : DataFrame) : drop_columns df ∅ = Ok df.
Proof.
  unfold drop_columns. rewrite elements_empty. simpl.
  f_equal. apply frame_eq; simpl.
  - apply drop_cells_nothing.
  - induction (rows df) as [|[i cs] rs IH]; simpl; [reflexivity|].
    now rewrite drop_cells_nothing, IH.
Qed.

Lemma drop_columns_ok_columns (df out : DataFrame) (drop : gset string) :
  drop_columns df drop = Ok out ->
  columns out = drop_cells drop (columns df) (columns df).
Proof.
  unfold drop_columns.
  destruct (List.filter _ (elements drop)); intros H; inversion H. reflexivity.
Qed.

(** C10. The restriction to the critical isotopes drops the columns of the
    [training_data] attribute of the instance that are not critical: it is
    [drop] of the set [set(list(self.training_data)) - set(critical_isotopes)]
    applied to the run as conditioned so far. Hence a column of the run is
    kept exactly when it is not such a column, so a run column absent from
    [training_data] is never dropped, and with [training_data] left at its
    default, the empty list, the run comes back unchanged. *)
Theorem critical_restriction_uses_training_data
    (test_data : DataFrame) (isotope_trigger : string) (filter_neg apply_threshold : bool)
    (c : string) (cs : list string) (w : World) (pre : DataFrame) (w' : World) :
  condition_run test_data isotope_trigger filter_neg apply_threshold None w = (Ok pre, w') ->
  let non_crit := set_difference (py_list (training_data (self w))) (c :: cs) in
  condition_run test_data isotope_trigger filter_neg apply_threshold (Some (c :: cs)) w
    = (drop_columns pre non_crit, w')
  /\ (forall out col,
        drop_columns pre non_crit = Ok out ->
        (col ∈ columns out <->
         col ∈ columns pre /\
         ~ (col ∈ py_list (training_data (self w)) /\ col ∉ c :: cs)))
  /\ (training_data (self w) = PyList [] -> drop_columns pre non_crit = Ok pre).
Proof.
  intros H non_crit. unfold condition_run in *.
  apply bind_ok in H as (td & w1 & Hthr & Hret).
  apply ret_ok in Hret as [-> ->].
  assert (Htd : training_data (self w') = training_data (self w)).
  { destruct apply_threshold.
    - eapply threshold_keeps_training_data; exact Hthr.
    - apply ret_ok in Hthr as [_ ->]. reflexivity. }
  split; [|split].
  - rewrite (bind_eq _ _ _ _ _ Hthr).
    unfold bind, get_self, lift. rewrite Htd. reflexivity.
  - intros out col Hout.
    rewrite (drop_columns_ok_columns _ _ _ Hout), drop_cells_columns.
    unfold non_crit, set_difference.
    rewrite elem_of_difference, !elem_of_list_to_set. tauto.
  - intros Hdefault. unfold non_crit, set_difference. rewrite Hdefault.
    assert (E : list_to_set (py_list (PyList [])) ∖ list_to_set (c :: cs) = (∅ : gset string)).
    { apply set_eq. intros x. rewrite elem_of_difference. simpl.
      split; [intros [Hx _]|intros Hx]; exfalso; revert Hx; apply not_elem_of_empty. }
    rewrite E. apply drop_columns_nothing.
Qed.

(** ** The detection threshold of the inference call *)

Lemma list_filter_filter {A} (f g : A -> bool) (l : list A) :
  List.filter g (List.filter f l) = List.filter (fun x => f x && g x) l.
Proof.
  induction l as [|x l IH]; simpl; [reflexivity|].
  destruct (f x); simpl; [destruct (g x)|]; now rewrite IH.
Qed.

Lemma columns_after_filter_negative (b : bool) (data : DataFrame) :
  columns (if b then filter_negative data else data) = columns data.
Proof. destruct b; reflexivity. Qed.

(** C4, as the code has it. [apply_trained_classification] takes no
    threshold: when [apply_threshold] is set it calls
    [apply_detection_threshold] with the default threshold 0, whatever
    threshold the instance recorded before. The rows kept are exactly the
    rows (of the run, after the negative filter if that is on) whose trigger
    value is at least 0 and that have no missing cell; 0 is then the
    threshold recorded on the instance. *)
Theorem inference_threshold_is_default
    (test_data : DataFrame) (isotope_trigger : string) (filter_neg : bool)
    (w : World) (j : nat) :
  column_index isotope_trigger (columns test_data) = Some j ->
  exists out w',
    condition_run test_data isotope_trigger filter_neg true None w = (Ok out, w')
    /\ columns out = columns test_data
    /\ rows out
       = List.filter (fun r => fge (cell_at j r) 0 && forallb notna (snd r))
                     (rows (if filter_neg then filter_negative test_data else test_data))
    /\ threshold_value (self w') = Some 0%Q.
Proof.
  intros Hj. unfold condition_run, apply_detection_threshold.
  rewrite columns_after_filter_negative, Hj.
  eexists. eexists. split; [reflexivity|]. simpl.
  split; [reflexivity|].
  split; [apply list_filter_filter|reflexivity].
Qed.

(** ** Counts by probability *)

Lemma filter_length_mono {A} (f g : A -> bool) (l : list A) :
  (forall x, f x = true -> g x = true) ->
  (length (List.filter f l) <= length (List.filter g l))%nat.
Proof.
  intros Hfg. induction l as [|x l IH]; simpl; [lia|].
  destruct (f x) eqn:Ef.
  - rewrite (Hfg _ Ef). simpl. lia.
  - destruct (g x); simpl; lia.
Qed.

Lemma fle_mono (c : float) (t t' : Q) :
  (t <= t')%Q -> fle c t = true -> fle c t' = true.
Proof.
  destruct c as [q|]; simpl; [|discriminate].
  intros Ht H. apply Qle_bool_iff. apply Qle_bool_iff in H.
  eapply Qle_trans; eassumption.
Qed.

Lemma count_le_mono (xs : list float) (t t' : Q) :
  (t <= t')%Q -> count_le xs t <= count_le xs t'.
Proof.
  intros Ht. unfold count_le. apply inj_le.
  apply filter_length_mono. intros c. now apply fle_mono.
Qed.

Lemma count_le_nonneg (xs : list float) (t : Q) : 0 <= count_le xs t.
Proof. unfold count_le. lia. Qed.

Lemma track_probabilities_counts class_proba tcp w c w' :
  track_probabilities class_proba tcp w = (Ok (Some c), w') ->
  exists t0 t1 rest,
    tcp = t0 :: t1 :: rest
    /\ c = mkCounts (count_le (map fst class_proba) 0.5) (count_le (map snd class_proba) 0.5)
                    (count_le (map fst class_proba) t0) (count_le (map snd class_proba) t1).
Proof.
  unfold track_probabilities.
  destruct tcp as [|t0 [|t1 rest]]; intros H.
  - apply ret_ok in H as [H _]. discriminate.
  - apply bind_ok in H as (u & w1 & _ & H).
    apply bind_ok in H as (a0 & w2 & _ & H).
    apply bind_ok in H as (a1 & w3 & H1 & _).
    apply lift_ok in H1 as [H1 _]. discriminate.
  - apply bind_ok in H as (u & w1 & _ & H).
    apply bind_ok in H as (a0 & w2 & H0 & H).
    apply bind_ok in H as (a1 & w3 & H1 & H).
    apply lift_ok in H0 as [E0 _]. apply lift_ok in H1 as [E1 _].
    apply ret_ok in H as [E2 _].
    inversion E0; inversion E1; inversion E2; subst.
    exists a0, a1, rest. split; reflexivity.
Qed.

Lemma classify_run_locals gbc out base tcp trig fneg athr crit tpc test w l w' :
  classify_run gbc out base tcp trig fneg athr crit tpc test w = (Ok l, w') ->
  exists c m w1 w2,
    gbc = Some c /\ clf_model c = Some m
    /\ gbc_predict m (X_test l) = Ok (X_test_predicted l)
    /\ gbc_predict_proba m (X_test l) = Ok (X_test_predicted_proba l)
    /\ track_probabilities (X_test_predicted_proba l) tcp w1 = (Ok (proba_counts l), w2)
    /\ X_test_data l
       = if tpc
         then Some (mkRow (fst test)
                          (inject_Z (count (X_test_predicted l) 1)
                           + inject_Z (count (X_test_predicted l) 0))%Q
                          (inject_Z (count (X_test_predicted l) 1))
                          (inject_Z (count (X_test_predicted l) 0))
                          (option_map total_nat_above_proba_thresh (proba_counts l))
                          (option_map total_tech_above_proba_thresh (proba_counts l)))
         else None.
Proof.
  unfold classify_run. intros H.
  apply bind_ok in H as (td & w1 & Hcond & H).
  apply bind_ok in H as (c & w2 & Hgbc & H).
  destruct gbc as [c0|]; [|now apply raise_ok in Hgbc].
  apply ret_ok in Hgbc as [-> ->].
  apply bind_ok in H as (preds & w3 & Hpred & H).
  apply bind_ok in H as (proba & w4 & Hproba & H).
  apply bind_ok in H as (counts & w5 & Hcounts & H).
  unfold predict in Hpred. unfold predict_proba in Hproba.
  destruct (clf_model c) as [m|] eqn:Em; [|now apply raise_ok in Hpred].
  apply lift_ok in Hpred as [Hpred ->]. apply lift_ok in Hproba as [Hproba ->].
  destruct tpc.
  - apply bind_ok in H as (pres & w6 & Hset & H).
    apply bind_ok in H as (u & w7 & Hcsv & H).
    apply ret_ok in H as [<- _]. simpl.
    exists c, m, w4, w5. repeat split; assumption.
  - apply ret_ok in H as [<- _]. simpl.
    exists c, m, w4, w5. repeat split; assumption.
Qed.

(** C5, as the code has it. For every run that is classified with
    probability tracking on, each "above proba thresh" count is the baseline
    count (probability at most 0.5) minus the count at the threshold: it
    never exceeds its baseline, and it is non-negative when its threshold is
    at most 0.5. The summary row carries these two differences. *)
Theorem proba_thresh_counts_bounded
    gbc out base tcp trig fneg athr crit tpc test w l w' (c : ProbaCounts) :
  classify_run gbc out base tcp trig fneg athr crit tpc test w = (Ok l, w') ->
  proba_counts l = Some c ->
  exists t0 t1 rest,
    tcp = t0 :: t1 :: rest
    /\ total_nat_above_proba_thresh c <= total_natural_by_proba c
    /\ total_tech_above_proba_thresh c <= total_technical_by_proba c
    /\ ((t0 <= 0.5)%Q -> 0 <= total_nat_above_proba_thresh c)
    /\ ((t1 <= 0.5)%Q -> 0 <= total_tech_above_proba_thresh c)
    /\ (forall r, X_test_data l = Some r ->
          nat_above_proba_thresh r = Some (total_nat_above_proba_thresh c)
          /\ tech_above_proba_thresh r = Some (total_tech_above_proba_thresh c)).
Proof.
  intros H Hc.
  apply classify_run_locals in H as (c0 & m & w1 & w2 & _ & _ & _ & _ & Htrack & Hrow).
  rewrite Hc in Htrack, Hrow.
  apply track_probabilities_counts in Htrack as (t0 & t1 & rest & -> & ->).
  exists t0, t1, rest. split; [reflexivity|].
  unfold total_nat_above_proba_thresh, total_tech_above_proba_thresh; simpl.
  pose proof (count_le_nonneg (map fst (X_test_predicted_proba l)) t0).
  pose proof (count_le_nonneg (map snd (X_test_predicted_proba l)) t1).
  split; [lia|]. split; [lia|].
  split; [|split].
  - intros Ht. pose proof (count_le_mono (map fst (X_test_predicted_proba l)) _ _ Ht). lia.
  - intros Ht. pose proof (count_le_mono (map snd (X_test_predicted_proba l)) _ _ Ht). lia.
  - intros r Hr. rewrite Hr in Hrow.
    destruct tpc; [|discriminate]. inversion Hrow. split; reflexivity.
Qed.

(** ** Counts by predicted label *)


(** ** Conversion of a run and the training schema *)

Lemma track_probabilities_total class_proba tcp w :
  length tcp <> 1%nat ->
  exists counts w', track_probabilities class_proba tcp w = (Ok counts, w').
Proof.
  intros Hlen. unfold track_probabilities.
  destruct tcp as [|t0 [|t1 rest]]; [| simpl in Hlen; lia |].
  - eexists. eexists. reflexivity.
  - eexists. eexists. reflexivity.
Qed.

Lemma set_column_total (df : DataFrame) (name : string) (values : list float) :
  length values = length (rows df) ->
  exists df', set_column df name values = Ok df'.
Proof.
  intros Hlen. unfold set_column.
  rewrite Hlen, Nat.eqb_refl. simpl. eexists. reflexivity.
Qed.

(** C3, as the code has it. The conversion [as_matrix] of a run cannot
    fail and compares nothing with the training schema: the column names of
    the conditioned run play no part in what follows. Whenever the
    classifier accepts the array of the run, that is [predict] and
    [predict_proba] answer, with one probability row per row, the run gets
    its summary row (counting on, and the probability thresholds either off
    or a pair): a mismatch is reported only if the classifier itself refuses
    the array. *)
Theorem summary_row_without_schema_check
    (c : Classifier) (m : model) out base tcp trig fneg athr crit
    (test : string * DataFrame) (w : World) (td : DataFrame) (w1 : World)
    (predicted : labels) (proba : list (float * float)) :
  clf_model c = Some m ->
  condition_run (reset_index (snd test)) trig fneg athr crit w = (Ok td, w1) ->
  gbc_predict m (as_matrix td) = Ok predicted ->
  gbc_predict_proba m (as_matrix td) = Ok proba ->
  length proba = length (rows td) ->
  length tcp <> 1%nat ->
  exists l w2 r,
    classify_run (Some c) out base tcp trig fneg athr crit true test w = (Ok l, w2)
    /\ X_test l = as_matrix td
    /\ X_test_predicted l = predicted
    /\ X_test_data l = Some r
    /\ run_name r = fst test.
Proof.
  intros Hm Hcond Hpred Hproba Hlen Htcp.
  destruct (track_probabilities_total proba tcp w1 Htcp) as (counts & w2 & Htrack).
  destruct (set_column_total td "natural_class_proba" (map snd proba)) as (td' & Hset).
  { now rewrite length_map. }
  unfold classify_run.
  rewrite (bind_eq _ _ _ _ _ Hcond).
  unfold bind at 1. unfold ret at 1.
  unfold predict, predict_proba. rewrite Hm.
  unfold bind at 1. unfold lift at 1. rewrite Hpred.
  unfold bind at 1. unfold lift at 1. rewrite Hproba.
  rewrite (bind_eq _ _ _ _ _ Htrack).
  unfold bind at 1. unfold lift at 1. rewrite Hset.
  unfold bind, to_csv, ret.
  eexists. eexists. eexists. split; [reflexivity|]. simpl. repeat split.
Qed.

(** ** The stage count in the parameter search *)

(** C6, as the code has it. With a base classifier and a stage index [k] on
    the instance, [find_optimum_gbc_parameters] returns a new plain
    classifier that is not fitted. Its parameters are the best ones of the
    grid search with [n_estimators] set to [k] when [k] is not 0, and the
    best ones as the grid search gave them when [k] is 0 (the test
    [if self.optimum_boosting_stages:] is false for 0). The same dictionary
    is left in [self.gbc_best_params]. *)
Theorem find_optimum_overrides_nonzero_stages
    (crossfolds : Z) (training_df : DataFrame) (target_df : labels) (grid : Grid)
    (w : World) (base : Classifier) (k : Z) (best : Params) (g' : rng) :
  gbc_base (self w) = Some base ->
  optimum_boosting_stages (self w) = Some k ->
  grid_search (clf_params base) crossfolds grid (as_matrix training_df) target_df
              (np_random w) = (Ok best, g') ->
  exists found w',
    find_optimum_gbc_parameters crossfolds training_df target_df grid w = (Ok found, w')
    /\ clf_model found = None
    /\ clf_with_coef found = false
    /\ clf_params found = (if k =? 0 then best else <["n_estimators" := PInt k]> best)
    /\ gbc_best_params (self w') = Some (clf_params found)
    /\ (k <> 0 -> clf_params found !! "n_estimators" = Some (PInt k)).
Proof.
  intros Hbase Hk Hgrid.
  unfold find_optimum_gbc_parameters, conform_data_for_ML, getattr.
  unfold bind at 1. unfold bind at 1. unfold get_self at 1. rewrite Hbase.
  unfold ret at 1. unfold bind at 1. unfold with_rng. rewrite Hgrid.
  unfold bind at 1. unfold set_gbc_best_params, bind, get_self, set_self, ret.
  simpl. rewrite Hk.
  destruct (k =? 0) eqn:Ek.
  - eexists. eexists. split; [reflexivity|]. simpl.
    repeat split. intros Hne. apply Z.eqb_eq in Ek. contradiction.
  - eexists. eexists. split; [reflexivity|]. simpl.
    repeat split. intros _. apply lookup_insert_eq.
Qed.

(** ** One pass of the elimination loop *)

Lemma same_aggregates_refl a : same_aggregates a a.
Proof. repeat split. Qed.

Lemma reoptimize_aggregates df tgt cv fm grid st w st1 o w1 :
  reoptimize df tgt cv fm grid st w = (Ok (st1, o), w1) ->
  same_aggregates st1 st.
Proof.
  unfold reoptimize. intros H.
  apply bind_ok in H as ([st0 o0] & w0 & H0 & H).
  assert (Hst0 : same_aggregates st0 st).
  { destruct fm.
    - apply bind_ok in H0 as (k & wa & _ & H0).
      apply bind_ok in H0 as (u & wb & _ & H0).
      apply ret_ok in H0 as [E _]. inversion E; subst. repeat split.
    - apply ret_ok in H0 as [E _]. inversion E; subst. apply same_aggregates_refl. }
  destruct cv.
  - apply bind_ok in H as (found & wa & _ & H).
    apply bind_ok in H as (obj & wb & _ & H).
    apply bind_ok in H as (kw & wc & _ & H).
    apply ret_ok in H as [E _]. inversion E; subst. exact Hst0.
  - apply ret_ok in H as [E _]. inversion E; subst. exact Hst0.
Qed.

Lemma reoptimize_stages_only df tgt grid st w st1 o w1 :
  reoptimize df tgt false true grid st w = (Ok (st1, o), w1) ->
  exists k w0,
    find_min_boosting_stages df tgt (gbc_init_params st) w = (Ok k, w0)
    /\ o = Some k
    /\ gbc_init_params st1 = <["n_estimators" := PInt k]> (gbc_init_params st)
    /\ gbc st1 = gbc st.
Proof.
  unfold reoptimize. intros H.
  apply bind_ok in H as ([st0 o0] & w0 & H0 & H).
  apply ret_ok in H as [E _]. inversion E; subst.
  apply bind_ok in H0 as (k & wa & Hk & H0).
  apply bind_ok in H0 as (u & wb & _ & H0).
  apply ret_ok in H0 as [E0 _]. inversion E0; subst.
  exists k, wa. repeat split. exact Hk.
Qed.

Lemma rfecv_fit_ok est cv X y w r w' :
  rfecv_fit est cv X y w = (Ok r, w') ->
  exists X_r w1,
    estimator r = est
    /\ n_features_ r = Z.of_nat (length (List.filter id (support_ r)))
    /\ transform (support_ r) X = Ok X_r
    /\ fit (clone est) X_r y w1 = (Ok (estimator_ r), w').
Proof.
  unfold rfecv_fit. intros H.
  apply bind_ok in H as ([[support ranking] scores] & w1 & _ & H).
  apply bind_ok in H as (X_r & w2 & Htr & H).
  apply bind_ok in H as (final & w3 & Hfit & H).
  apply ret_ok in H as [<- <-]. apply lift_ok in Htr as [Htr <-].
  exists X_r, w1. simpl. repeat split; assumption.
Qed.

Lemma name_loop_length ids names i acc out :
  name_loop ids names i acc = Ok out ->
  length out = (length acc + length (List.filter id ids))%nat.
Proof.
  revert i acc. induction ids as [|b ids IH]; intros i acc H; simpl in H.
  - inversion H. simpl. lia.
  - destruct b; simpl.
    + destruct (nth_error names i); [|discriminate].
      apply IH in H. rewrite length_app in H. simpl in H. lia.
    + now apply IH in H.
Qed.

(** Everything one pass of the loop body establishes. *)
Lemma rfecv_split_ok df tgt X_all y_all n_splits cv kfolds grid fm names st split w st' l w' :
  rfecv_split df tgt X_all y_all n_splits cv kfolds grid fm names st split w
    = (Ok (st', l), w') ->
  exists st1 w1 w2,
    of_split X_all y_all split l
    /\ reoptimize df tgt cv fm grid st
         (mkWorld (self w) (np_random w) (stdout w ++ [PrintRun (run st + 1) n_splits])%list
                  (written w))
       = (Ok (st1, optimun_boosting_stages l), w1)
    /\ rfecv_fit (gbc st1) kfolds (X_train l) (y_train l) w1 = (Ok (rfecv l), w2)
    /\ supPort l = support_ (rfecv l)
    /\ name_loop (supPort l) names 0 [] = Ok (nameList l)
    /\ transform (supPort l) (X_train l) = Ok (X_trimTrainSet l)
    /\ transform (supPort l) (X_holdout l) = Ok (X_trimHoldoutSet l)
    /\ fit (gbc st1) (X_trimTrainSet l) (y_train l) w2 = (Ok (gbc_refit l), w')
    /\ rfecv_predict (rfecv l) (X_holdout l) w' = (Ok (holdout_preds l), w')
    /\ f1_weighted (y_holdout l) (holdout_preds l) = Ok (rfc_all_f1 l)
    /\ r2_score (y_holdout l) (holdout_preds l) = Ok (rfc_all_f2 l)
    /\ mean_absolute_error (y_holdout l) (holdout_preds l) = Ok (rfc_all_f3 l)
    /\ feature_importances_ (gbc_refit l) w' = (Ok (refinedFeatureImportances l), w')
    /\ st' = mkLocals (nameListAll st1 ++ one_column (nameList l))%list
                      (optimumLengthAll st1 ++ one_row (n_features_ (rfecv l)))%list
                      (classScoreAll st1 ++ one_row (rfc_all_f1 l))%list
                      (classScoreAll2 st1 ++ one_row (rfc_all_f2 l))%list
                      (classScoreAll3 st1 ++ one_row (rfc_all_f3 l))%list
                      (featureImportancesAll st1 ++ one_row (refinedFeatureImportances l))%list
                      (rfecvGridScoresAll st1 ++ one_row (grid_scores_ (rfecv l)))%list
                      (gbc_init_params st1) (gbc_refit l) (run st + 1).
Proof.
  unfold rfecv_split. destruct split as [train_index test_index]. intros H.
  apply bind_ok in H as (Xtr & wa & H1 & H). apply lift_ok in H1 as [H1 <-].
  apply bind_ok in H as (Xho & wa & H2 & H). apply lift_ok in H2 as [H2 <-].
  apply bind_ok in H as (ytr & wa & H3 & H). apply lift_ok in H3 as [H3 <-].
  apply bind_ok in H as (yho & wa & H4 & H). apply lift_ok in H4 as [H4 <-].
  apply bind_ok in H as (u & wa & Hprint & H).
  unfold print in Hprint. inversion Hprint; subst wa; clear Hprint.
  apply bind_ok in H as ([st1 o] & w1 & Hre & H).
  apply bind_ok in H as (r & w2 & Hfit & H).
  apply bind_ok in H as (nl & wb & Hnames & H). apply lift_ok in Hnames as [Hnames <-].
  apply bind_ok in H as (Xtt & wb & Ht1 & H). apply lift_ok in Ht1 as [Ht1 <-].
  apply bind_ok in H as (Xth & wb & Ht2 & H). apply lift_ok in Ht2 as [Ht2 <-].
  apply bind_ok in H as (g & w3 & Hrefit & H).
  apply bind_ok in H as (preds & w4 & Hpreds & H).
  assert (w4 = w3) as ->.
  { unfold rfecv_predict in Hpreds.
    apply bind_ok in Hpreds as (Xr & wc & Hc & Hp). apply lift_ok in Hc as [_ <-].
    unfold predict in Hp. destruct (clf_model (estimator_ r)); [|now apply raise_ok in Hp].
    now apply lift_ok in Hp as [_ ->]. }
  apply bind_ok in H as (f1 & wb & Hf1 & H). apply lift_ok in Hf1 as [Hf1 <-].
  apply bind_ok in H as (f2 & wb & Hf2 & H). apply lift_ok in Hf2 as [Hf2 <-].
  apply bind_ok in H as (f3 & wb & Hf3 & H). apply lift_ok in Hf3 as [Hf3 <-].
  apply bind_ok in H as (imp & w5 & Himp & H).
  assert (w5 = w3) as ->.
  { unfold feature_importances_ in Himp.
    destruct (clf_model g); [|now apply raise_ok in Himp].
    now apply ret_ok in Himp as [_ ->]. }
  apply ret_ok in H as [E <-]. inversion E; subst; clear E. simpl.
  exists st1, w1, w2. unfold of_split. simpl.
  repeat split; assumption.
Qed.

(** What one pass establishes for every classifier. Both partitions are projected on
    the retained channels and the classifier is fitted again on the trimmed
    train partition; the three scores compare the true holdout labels with
    predictions on the trimmed holdout partition. Those predictions are made
    by [rfecv.estimator_], the clone that [RFECV] fitted on the trimmed
    train partition, not by the classifier that was just fitted again. *)
Lemma holdout_scores_from_rfecv_estimator
    df tgt X_all y_all n_splits cv kfolds grid fm names st split w st' l w' :
  rfecv_split df tgt X_all y_all n_splits cv kfolds grid fm names st split w
    = (Ok (st', l), w') ->
  transform (supPort l) (X_train l) = Ok (X_trimTrainSet l)
  /\ transform (supPort l) (X_holdout l) = Ok (X_trimHoldoutSet l)
  /\ (exists est w1 w2 w3,
        fit (clone est) (X_trimTrainSet l) (y_train l) w1 = (Ok (estimator_ (rfecv l)), w2)
        /\ fit est (X_trimTrainSet l) (y_train l) w2 = (Ok (gbc_refit l), w3))
  /\ (exists m, clf_model (estimator_ (rfecv l)) = Some m
                /\ gbc_predict m (X_trimHoldoutSet l) = Ok (holdout_preds l))
  /\ f1_weighted (y_holdout l) (holdout_preds l) = Ok (rfc_all_f1 l)
  /\ r2_score (y_holdout l) (holdout_preds l) = Ok (rfc_all_f2 l)
  /\ mean_absolute_error (y_holdout l) (holdout_preds l) = Ok (rfc_all_f3 l).
Proof.
  intros H.
  apply rfecv_split_ok in H
    as (st1 & w1 & w2 & _ & _ & Hfit & Hsup & _ & Ht1 & Ht2 & Hrefit & Hpred & Hf1 & Hf2 & Hf3 & _).
  apply rfecv_fit_ok in Hfit as (X_r & w0 & _ & _ & Htr & Hfinal).
  rewrite <- Hsup in Htr. rewrite Ht1 in Htr. inversion Htr; subst X_r.
  split; [exact Ht1|]. split; [exact Ht2|].
  split; [exists (gbc st1), w0, w2, w'; split; assumption|].
  split; [|repeat split; assumption].
  unfold rfecv_predict in Hpred.
  apply bind_ok in Hpred as (Xr & wc & Hc & Hp). apply lift_ok in Hc as [Hc <-].
  rewrite <- Hsup, Ht2 in Hc. inversion Hc; subst Xr.
  unfold predict in Hp.
  destruct (clf_model (estimator_ (rfecv l))) as [m|]; [|now apply raise_ok in Hp].
  apply lift_ok in Hp as [Hp _]. exists m. split; [reflexivity|exact Hp].
Qed.

(** ** Re-optimisation inside the loop *)


(** ** The aggregated collections *)

Lemma rfecv_split_names df tgt X_all y_all n_splits cv kfolds grid fm names st split w st' l w' :
  rfecv_split df tgt X_all y_all n_splits cv kfolds grid fm names st split w
    = (Ok (st', l), w') ->
  names_match_mask l.
Proof.
  intros H.
  apply rfecv_split_ok in H as (st1 & w1 & w2 & _ & _ & Hfit & Hsup & Hnames & _).
  apply rfecv_fit_ok in Hfit as (X_r & w0 & _ & Hn & _).
  apply name_loop_length in Hnames. simpl in Hnames.
  split; [exact Hnames|]. rewrite Hn, Hnames, Hsup. reflexivity.
Qed.

Lemma for_each_split_records df tgt X_all y_all n_splits cv kfolds grid fm names splits :
  forall st w st' w',
    for_each (fun st split =>
                bind (rfecv_split df tgt X_all y_all n_splits cv kfolds grid fm names st split)
                     (fun r => ret (fst r)))
             splits st w = (Ok st', w') ->
    exists ls,
      passes (rfecv_split df tgt X_all y_all n_splits cv kfolds grid fm names)
             splits st w ls st' w'
      /\ Forall2 (of_split X_all y_all) splits ls
      /\ Forall (fun l => supPort l = support_ (rfecv l)) ls
      /\ Forall names_match_mask ls
      /\ extended_by st st' ls.
Proof.
  induction splits as [|split splits IH]; intros st w st' w' H; simpl in H.
  - apply ret_ok in H as [<- <-]. exists [].
    split; [constructor|]. split; [constructor|]. split; [constructor|].
    split; [constructor|].
    unfold extended_by; simpl. rewrite !app_nil_r. repeat split.
  - apply bind_ok in H as (mid & w1 & Hbody & Hrest).
    apply bind_ok in Hbody as ([mid' l] & w2 & Hsplit & Hret).
    apply ret_ok in Hret as [<- <-]. simpl in Hrest.
    apply IH in Hrest as (ls & Hpasses & Hsplits & Hsup & Hmask & Hext).
    pose proof (rfecv_split_names _ _ _ _ _ _ _ _ _ _ _ _ _ _ _ _ Hsplit) as Hl.
    pose proof Hsplit as Hpass.
    apply rfecv_split_ok in Hsplit as (st1 & wa & wb & Hof & Hre & Hinv).
    apply reoptimize_aggregates in Hre as (E1 & E2 & E3 & E4 & E5 & E6 & E7).
    destruct Hinv as (_ & Hsupl & _ & _ & _ & _ & _ & _ & _ & _ & _ & Hmid).
    exists (l :: ls).
    split; [econstructor; eassumption|].
    split; [constructor; assumption|]. split; [constructor; assumption|].
    split; [constructor; assumption|].
    destruct Hext as (X1 & X2 & X3 & X4 & X5 & X6 & X7).
    subst mid'. simpl in *.
    unfold extended_by. rewrite X1, X2, X3, X4, X5, X6, X7, E1, E2, E3, E4, E5, E6, E7.
    unfold one_row. simpl. rewrite <- !app_assoc. repeat split.
Qed.

(** C7, as the code has it. When the split generator yields [n_splits]
    splits and the loop runs to its end, the passes of the loop body over
    the splits, each from the state the pass before left, give one record
    per split, in the order of the splits, and the grid scores, the
    retained-feature counts, the three scores and the feature importances
    each hold exactly one row per record, in that order, so [n_splits] rows
    each. The retained names are appended one row per name: [nameListAll]
    is the concatenation of the name lists of the passes. The rankings are
    not collected. In every pass the mask is the [support_] of the [RFECV]
    fitted in that pass, and the number of retained names is the number of
    its true entries. *)
Theorem aggregates_follow_the_splits
    (training_df : DataFrame) (target_df : labels) (n_splits : Z) (test_size : Q)
    (random_state : Z) (cv_grid_search : bool) (params : Params) (kfolds : Z)
    (gbc_grid_params : Grid) (find_min : bool)
    (w : World) (st : RfecvLocals) (w' : World) (splits : list (list nat * list nat)) :
  sss_split n_splits test_size random_state (as_matrix training_df) target_df = Ok splits ->
  length splits = Z.to_nat n_splits ->
  rfecv_feature_identify training_df target_df n_splits test_size random_state
                         cv_grid_search params kfolds gbc_grid_params find_min w
    = (Ok st, w') ->
  exists ls : list SplitLocals,
    passes (rfecv_split training_df target_df (as_matrix training_df) target_df n_splits
                        cv_grid_search kfolds gbc_grid_params find_min
                        (columns training_df))
           splits
           (mkLocals [] [] [] [] [] [] [] params (GradientBoostingClassifierrWithCoef params) 0)
           w ls st w'
    /\ Forall2 (of_split (as_matrix training_df) target_df) splits ls
    /\ rfecvGridScoresAll st = map (fun l => (0, grid_scores_ (rfecv l))) ls
    /\ optimumLengthAll st = map (fun l => (0, Z.of_nat (length (nameList l)))) ls
    /\ classScoreAll st = map (fun l => (0, rfc_all_f1 l)) ls
    /\ classScoreAll2 st = map (fun l => (0, rfc_all_f2 l)) ls
    /\ classScoreAll3 st = map (fun l => (0, rfc_all_f3 l)) ls
    /\ featureImportancesAll st = map (fun l => (0, refinedFeatureImportances l)) ls
    /\ nameListAll st = concat (map (fun l => one_column (nameList l)) ls)
    /\ Forall (fun l => supPort l = support_ (rfecv l)
                        /\ length (nameList l) = length (List.filter id (supPort l))) ls
    /\ (length (rfecvGridScoresAll st) = Z.to_nat n_splits
        /\ length (optimumLengthAll st) = Z.to_nat n_splits
        /\ length (classScoreAll st) = Z.to_nat n_splits
        /\ length (classScoreAll2 st) = Z.to_nat n_splits
        /\ length (classScoreAll3 st) = Z.to_nat n_splits
        /\ length (featureImportancesAll st) = Z.to_nat n_splits)%nat.
Proof.
  intros Hsplits Hlen H.
  unfold rfecv_feature_identify, conform_data_for_ML in H.
  apply bind_ok in H as (splits' & w1 & Hs & Hloop).
  apply lift_ok in Hs as [Hs <-]. rewrite Hsplits in Hs. inversion Hs; subst splits'.
  apply for_each_split_records in Hloop as (ls & Hpasses & Hof & Hsup & Hmask & Hext).
  destruct Hext as (X1 & X2 & X3 & X4 & X5 & X6 & X7). simpl in *.
  assert (Hls : length ls = Z.to_nat n_splits).
  { rewrite <- Hlen. symmetry. eapply Forall2_length; exact Hof. }
  assert (Hcounts : map (fun l => (0, n_features_ (rfecv l))) ls
                    = map (fun l => (0, Z.of_nat (length (nameList l)))) ls).
  { clear - Hmask. induction Hmask as [|l ls [_ Hn] _ IH]; simpl; [reflexivity|].
    now rewrite Hn, IH. }
  exists ls. rewrite X1, X2, X3, X4, X5, X6, X7, Hcounts, !length_map.
  split; [exact Hpasses|].
  split; [exact Hof|]. do 7 (split; [reflexivity|]).
  split; [|repeat split; exact Hls].
  clear - Hmask Hsup. induction Hmask as [|l ls [Hn _] _ IH]; [constructor|].
  inversion Hsup; subst. constructor; [split; assumption|]. now apply IH.
Qed.

(** ** Which classifier predicts on the holdout partition *)

Lemma fit_ok (c : Classifier) X y w c' w' :
  fit c X y w = (Ok c', w') ->
  exists m, fst (gbc_fit (clf_params c) X y (np_random w)) = Ok m
            /\ clf_model c' = Some m.
Proof.
  unfold fit. intros H.
  apply bind_ok in H as (m & w1 & Hm & H). apply ret_ok in H as [<- _].
  exists m. split; [|reflexivity].
  unfold with_rng in Hm.
  destruct (gbc_fit (clf_params c) X y (np_random w)) as [r g].
  inversion Hm. reflexivity.
Qed.

(** When fitting does not depend on the random state, the classifier fitted
    again on the trimmed train partition is in the state of
    [rfecv.estimator_], and its predictions on the trimmed holdout partition
    are the ones the scores were computed from. *)
Lemma holdout_scores_agree_when_fit_is_deterministic
    df tgt X_all y_all n_splits cv kfolds grid fm names st split w st' l w' :
  (forall p X y g g', fst (gbc_fit p X y g) = fst (gbc_fit p X y g')) ->
  rfecv_split df tgt X_all y_all n_splits cv kfolds grid fm names st split w
    = (Ok (st', l), w') ->
  predict (gbc_refit l) (X_trimHoldoutSet l) w' = (Ok (holdout_preds l), w').
Proof.
  intros Hdet H.
  apply holdout_scores_from_rfecv_estimator in H
    as (_ & _ & (est & w1 & w2 & w3 & Hfinal & Hrefit) & (m & Hm & Hpred) & _).
  apply fit_ok in Hfinal as (m1 & Hm1 & Em1).
  apply fit_ok in Hrefit as (m2 & Hm2 & Em2).
  simpl in Hm1. rewrite (Hdet _ _ _ _ (np_random w2)), Hm2 in Hm1.
  inversion Hm1; subst m2. rewrite Em1 in Hm. inversion Hm; subst m1.
  unfold predict. rewrite Em2. unfold lift. rewrite Hpred. reflexivity.
Qed.

End Properties.

(** * Further properties of the methods *)

Section MoreProperties.
Context {sk : Sklearn}.

Lemma returned_some {A} (r : res A * World) (a : A) :
  returned r = Some a -> r = (Ok a, snd r).
Proof.
  unfold returned. destruct r as [[x|e] w]; simpl; intros H; inversion H. reflexivity.
Qed.

(** ** The detection threshold *)

Lemma column_index_lt (name : string) (cols : list string) (j : nat) :
  column_index name cols = Some j -> (j < length cols)%nat.
Proof.
  revert j. induction cols as [|c cols IH]; intros j H; simpl in H; [discriminate|].
  destruct (String.eqb c name).
  - inversion H. simpl. lia.
  - destruct (column_index name cols) as [k|]; [|discriminate].
    inversion H. specialize (IH k eq_refl). simpl. lia.
Qed.

Lemma column_index_nth (name : string) (cols : list string) (j : nat) :
  column_index name cols = Some j -> nth_error cols j = Some name.
Proof.
  revert j. induction cols as [|c cols IH]; intros j H; simpl in H; [discriminate|].
  destruct (String.eqb c name) eqn:E.
  - inversion H. apply String.eqb_eq in E. subst. reflexivity.
  - destruct (column_index name cols) as [k|]; [|discriminate].
    inversion H. simpl. now apply IH.
Qed.

Lemma column_index_none (name : string) (cols : list string) :
  column_index name cols = None -> ~ In name cols.
Proof.
  induction cols as [|c cols IH]; simpl; intros H; [tauto|].
  destruct (String.eqb c name) eqn:E; [discriminate|].
  destruct (column_index name cols); [discriminate|].
  intros [->|Hin]; [rewrite String.eqb_refl in E; discriminate|].
  now apply IH.
Qed.

(** X1. When the trigger channel is a column, [apply_detection_threshold]
    returns: the columns are unchanged; the rows kept are, in their order,
    exactly the rows whose trigger value is at least the threshold and that
    have no missing cell; the threshold is recorded on the instance and
    nothing else of the interpreter changes. *)
Theorem detection_threshold_keeps_rows_at_or_above
    (data : DataFrame) (isotope_trigger : string) (t : Q) (w : World) (j : nat) :
  column_index isotope_trigger (columns data) = Some j ->
  exists out w',
    apply_detection_threshold data isotope_trigger t w = (Ok out, w')
    /\ columns out = columns data
    /\ sublist (rows out) (rows data)
    /\ (forall r, In r (rows out) <->
                  In r (rows data) /\ fge (cell_at j r) t = true
                  /\ forallb notna (snd r) = true)
    /\ threshold_value (self w') = Some t
    /\ training_data (self w') = training_data (self w)
    /\ gbc_base (self w') = gbc_base (self w)
    /\ optimum_boosting_stages (self w') = optimum_boosting_stages (self w)
    /\ gbc_best_params (self w') = gbc_best_params (self w)
    /\ np_random w' = np_random w /\ stdout w' = stdout w /\ written w' = written w.
Proof.
  intros Hj. unfold apply_detection_threshold. rewrite Hj.
  eexists. eexists. split; [reflexivity|]. simpl.
  split; [reflexivity|].
  split.
  { etrans; apply list_filter_sublist. }
  split; [|repeat split].
  intros r. rewrite !List.filter_In. tauto.
Qed.

Lemma fge_mono (c : float) (t t' : Q) :
  (t <= t')%Q -> fge c t' = true -> fge c t = true.
Proof.
  destruct c as [q|]; simpl; [|discriminate].
  intros Ht H. apply Qle_bool_iff. apply Qle_bool_iff in H.
  eapply Qle_trans; eassumption.
Qed.

(** X2. Thresholds compose: filtering at [t] and then at a threshold [t']
    that is not lower gives the frame, and leaves the interpreter in the
    state, that filtering at [t'] alone gives. In particular the filter is
    idempotent. *)
Theorem detection_thresholds_compose
    (data : DataFrame) (isotope_trigger : string) (t t' : Q) (w : World) (j : nat) :
  column_index isotope_trigger (columns data) = Some j ->
  (t <= t')%Q ->
  exists mid w1 out w2,
    apply_detection_threshold data isotope_trigger t w = (Ok mid, w1)
    /\ apply_detection_threshold mid isotope_trigger t' w1 = (Ok out, w2)
    /\ apply_detection_threshold data isotope_trigger t' w = (Ok out, w2).
Proof.
  intros Hj Ht. unfold apply_detection_threshold. rewrite Hj.
  eexists. eexists. eexists. eexists.
  split; [reflexivity|]. simpl. rewrite Hj.
  split; [reflexivity|].
  unfold bind, set_threshold_value, bind, get_self, set_self, ret, dropna. simpl.
  f_equal. f_equal. f_equal.
  rewrite !list_filter_filter. apply List.filter_ext. intros r.
  destruct (fge (cell_at j r) t') eqn:E'.
  - rewrite (fge_mono _ _ _ Ht E'). simpl. now rewrite andb_diag.
  - now rewrite !andb_false_r.
Qed.

Lemma filter_all_true {A} (f : A -> bool) (l : list A) :
  Forall (fun x => f x = true) l -> List.filter f l = l.
Proof.
  induction 1 as [|x l Hx _ IH]; simpl; [reflexivity|]. now rewrite Hx, IH.
Qed.

Lemma rectangular_filter_negative (data : DataFrame) :
  rectangular data -> rectangular (filter_negative data).
Proof.
  unfold rectangular. intros H. rewrite filter_negative_rows. simpl.
  apply List.Forall_forall. intros r Hr. apply List.filter_In in Hr as [Hr _].
  rewrite List.Forall_forall in H. now apply H.
Qed.

(** X3. On a frame as pandas builds it, the threshold 0 removes nothing
    once the negative filter has run: every cell that is left is a number
    that is at least 0. So in the conditioning of a run, where the threshold
    is always 0, the threshold step after the negative filter only records
    0 on the instance. *)
Theorem zero_threshold_after_negative_filter
    (data : DataFrame) (isotope_trigger : string) (w : World) (j : nat) :
  rectangular data ->
  column_index isotope_trigger (columns data) = Some j ->
  exists w',
    condition_run data isotope_trigger true true None w = (Ok (filter_negative data), w')
    /\ threshold_value (self w') = Some 0%Q
    /\ fst (condition_run data isotope_trigger true false None w)
       = Ok (filter_negative data).
Proof.
  intros Hrect Hj. unfold condition_run, apply_detection_threshold.
  rewrite filter_negative_columns, Hj.
  assert (Hrows : List.filter (fun r => forallb notna (snd r))
                    (List.filter (fun r => fge (cell_at j r) default_threshold_value)
                                 (rows (filter_negative data)))
                  = rows (filter_negative data)).
  2: { unfold bind, set_threshold_value, bind, get_self, set_self, ret, dropna. simpl.
       simpl in Hrows. rewrite Hrows.
       eexists. split; [reflexivity|]. split; reflexivity. }
  rewrite list_filter_filter. apply filter_all_true.
  pose proof (rectangular_filter_negative _ Hrect) as Hrect'.
  unfold rectangular in Hrect'. rewrite filter_negative_columns in Hrect'.
  rewrite List.Forall_forall in *. intros r Hr.
  specialize (Hrect' r Hr).
  rewrite filter_negative_rows in Hr. apply List.filter_In in Hr as [_ Hnn].
  rewrite forallb_forall in Hnn.
  apply andb_true_intro. split.
  - unfold cell_at. destruct (nth_error (snd r) j) as [c|] eqn:Ec.
    + apply nth_error_In in Ec. now apply Hnn.
    + apply nth_error_None in Ec. apply column_index_lt in Hj. lia.
  - apply forallb_forall. intros c Hc. eapply fge_notna. now apply Hnn.
Qed.

(** ** Runs without the trigger channel *)

(** Every pass of a loop that ran to its end returned. *)
Lemma for_each_all_ok {A S} (body : S -> A -> M S) (xs : list A) :
  forall acc w acc' w',
    for_each body xs acc w = (Ok acc', w') ->
    Forall (fun x => exists a v a' v', body a x v = (Ok a', v')) xs.
Proof.
  induction xs as [|x xs IH]; intros acc w acc' w' H; simpl in H; [constructor|].
  apply bind_ok in H as (mid & w1 & Hbody & Hrest).
  constructor; [exists acc, w, mid, w1; exact Hbody|].
  eapply IH; exact Hrest.
Qed.

(** X4. With [apply_threshold] on, [apply_trained_classification] returns
    only if every run file has the trigger channel among its columns: one
    run without it makes the whole call raise, whatever the other runs
    hold. *)
Theorem classification_needs_trigger_in_every_run
    test_files out base gbc_fitted tcp trig training_df target_df fneg crit tpc
    (w : World) (table : list SummaryRow) (w' : World) :
  apply_trained_classification test_files out base gbc_fitted tcp trig training_df
                               target_df fneg true crit tpc w = (Ok table, w') ->
  Forall (fun test : string * DataFrame => In trig (columns (snd test))) test_files.
Proof.
  unfold apply_trained_classification, conform_data_for_ML. intros H.
  apply bind_ok in H as (fitted & w1 & _ & H).
  apply bind_ok in H as (tracks & w2 & Hloop & _).
  apply for_each_all_ok in Hloop.
  eapply List.Forall_impl; [|exact Hloop]. clear.
  intros test (a & v & a' & v' & H). simpl in H.
  apply bind_ok in H as (l & v1 & Hrun & _).
  unfold classify_run in Hrun.
  apply bind_ok in Hrun as (td & v2 & Hcond & _).
  unfold condition_run in Hcond.
  apply bind_ok in Hcond as (td' & v3 & Hthr & _).
  unfold apply_detection_threshold in Hthr.
  rewrite columns_after_filter_negative in Hthr. simpl in Hthr.
  destruct (column_index trig (columns (snd test))) as [j|] eqn:Hj;
    [|now apply raise_ok in Hthr].
  eapply nth_error_In. apply column_index_nth. exact Hj.
Qed.

(** ** The restriction to the critical isotopes *)

Lemma list_filter_nil {A} (f : A -> bool) (l : list A) :
  (forall x, In x l -> f x = false) -> List.filter f l = [].
Proof.
  induction l as [|x l IH]; simpl; intros H; [reflexivity|].
  rewrite (H x (or_introl eq_refl)). apply IH. intros y Hy. apply H. now right.
Qed.

Lemma existsb_eqb_In (name : string) (cols : list string) :
  In name cols -> existsb (String.eqb name) cols = true.
Proof.
  intros H. apply existsb_exists. exists name. split; [exact H|apply String.eqb_refl].
Qed.

(** Dropping labels that are all columns does not raise. *)
Lemma drop_columns_present (df : DataFrame) (drop : gset string) :
  (forall l, l ∈ drop -> In l (columns df)) ->
  drop_columns df drop
  = Ok (mkFrame (drop_cells drop (columns df) (columns df))
                (map (fun r : row => (fst r, drop_cells drop (columns df) (snd r)))
                     (rows df))).
Proof.
  intros H. unfold drop_columns. rewrite list_filter_nil; [reflexivity|].
  intros l Hl. apply negb_false_iff. apply existsb_eqb_In. apply H.
  apply elem_of_elements. now apply list_elem_of_In.
Qed.

Lemma select_cons {A} (b : bool) (mask : list bool) (x : A) (xs : list A) :
  select (b :: mask) (x :: xs) = if b then x :: select mask xs else select mask xs.
Proof. unfold select. simpl. now destruct b. Qed.

Lemma drop_cells_select {A} (drop : gset string) (critical cols : list string)
    (xs : list A) :
  (forall c, In c cols -> (c ∈ drop <-> c ∉ critical)) ->
  length xs = length cols ->
  drop_cells drop cols xs = select (map (fun c => bool_decide (c ∈ critical)) cols) xs.
Proof.
  revert xs. induction cols as [|c cols IH]; intros [|x xs] Hc Hlen;
    simpl in Hlen; try discriminate; [reflexivity|].
  simpl. rewrite select_cons.
  assert (Hrest : forall c', In c' cols -> (c' ∈ drop <-> c' ∉ critical)).
  { intros c' Hc'. apply Hc. now right. }
  specialize (Hc c (or_introl eq_refl)).
  rewrite <- (IH xs Hrest) by lia.
  repeat case_bool_decide; tauto.
Qed.

Lemma noncritical_drop_set (cols critical : list string) (c : string) :
  In c cols -> (c ∈ set_difference cols critical <-> c ∉ critical).
Proof.
  intros Hc. unfold set_difference.
  rewrite elem_of_difference, !elem_of_list_to_set, list_elem_of_In. tauto.
Qed.

Lemma select_filter_self (critical cols : list string) :
  select (map (fun c => bool_decide (c ∈ critical)) cols) cols
  = List.filter (fun c => bool_decide (c ∈ critical)) cols.
Proof.
  induction cols as [|c cols IH]; [reflexivity|].
  simpl. rewrite select_cons, IH. reflexivity.
Qed.

(** X5. [filter_noncritical_isotopes] never raises on a frame as pandas
    builds it. The columns it leaves are the columns that are critical, in
    their original order; every row is kept, with its index label and with
    its cells of those columns. Critical isotopes that are not columns are
    ignored. *)
Theorem noncritical_isotopes_are_dropped (training_df : DataFrame)
    (critical_isotopes : list string) :
  rectangular training_df ->
  let keep := map (fun c => bool_decide (c ∈ critical_isotopes)) (columns training_df) in
  filter_noncritical_isotopes training_df critical_isotopes
  = Ok (mkFrame (List.filter (fun c => bool_decide (c ∈ critical_isotopes))
                             (columns training_df))
                (map (fun r : row => (fst r, select keep (snd r))) (rows training_df))).
Proof.
  intros Hrect keep. unfold filter_noncritical_isotopes.
  rewrite drop_columns_present.
  - f_equal. apply frame_eq; simpl.
    + rewrite (drop_cells_select _ critical_isotopes) by
        (try reflexivity; intros c Hc; now apply noncritical_drop_set).
      apply select_filter_self.
    + apply map_ext_in. intros r Hr. f_equal.
      apply drop_cells_select; [intros c Hc; now apply noncritical_drop_set|].
      unfold rectangular in Hrect. rewrite List.Forall_forall in Hrect. now apply Hrect.
  - intros l Hl. unfold set_difference in Hl.
    apply elem_of_difference in Hl as [Hl _].
    apply elem_of_list_to_set in Hl. now apply list_elem_of_In.
Qed.

(** X6. Restricting to the critical isotopes a second time changes
    nothing, on any frame. *)
Theorem noncritical_filter_is_idempotent (training_df out : DataFrame)
    (critical_isotopes : list string) :
  filter_noncritical_isotopes training_df critical_isotopes = Ok out ->
  filter_noncritical_isotopes out critical_isotopes = Ok out.
Proof.
  unfold filter_noncritical_isotopes. intros H.
  assert (E : set_difference (columns out) critical_isotopes = ∅).
  { apply set_eq. intros c. split; [|intros Hc; exfalso; revert Hc; apply not_elem_of_empty].
    intros Hc. exfalso. unfold set_difference in Hc.
    apply elem_of_difference in Hc as [Hin Hcrit].
    apply elem_of_list_to_set in Hin.
    rewrite (drop_columns_ok_columns _ _ _ H) in Hin.
    apply drop_cells_columns in Hin as [Hin Hdrop].
    apply Hdrop. unfold set_difference.
    apply elem_of_difference. split; [now apply elem_of_list_to_set|exact Hcrit]. }
  rewrite E. apply drop_columns_nothing.
Qed.

(** ** Splitting the class column off *)

Lemma drop_cells_singleton (target : string) (cols : list string) :
  drop_cells {[target]} cols cols = List.filter (fun c => negb (String.eqb c target)) cols.
Proof.
  induction cols as [|c cols IH]; [reflexivity|]. simpl. rewrite IH.
  destruct (String.eqb c target) eqn:E; simpl.
  - apply String.eqb_eq in E. subst. rewrite bool_decide_eq_true_2; [reflexivity|].
    now apply elem_of_singleton.
  - rewrite bool_decide_eq_false_2; [reflexivity|].
    intros Hc. apply elem_of_singleton in Hc. subst. rewrite String.eqb_refl in E.
    discriminate.
Qed.

(** X7. [split_target_from_training_data] raises [KeyError] exactly when
    the target is not a column. Otherwise the training frame has the other
    columns in their order, so the target is no longer among them, and both
    the training frame and the target series have one entry per row of the
    frame, in order, under the index labels of the frame; the series holds
    the cells of the target column. *)
Theorem split_target_from_training_data_spec (df : DataFrame) (target_name : string) :
  match split_target_from_training_data df target_name with
  | Ok (training_df, target_df) =>
      In target_name (columns df)
      /\ columns training_df
         = List.filter (fun c => negb (String.eqb c target_name)) (columns df)
      /\ ~ In target_name (columns training_df)
      /\ map fst (rows training_df) = map fst (rows df)
      /\ map fst target_df = map fst (rows df)
      /\ (exists j, nth_error (columns df) j = Some target_name
                    /\ map snd target_df = map (cell_at j) (rows df))
  | Raise e => e = KeyError target_name /\ ~ In target_name (columns df)
  end.
Proof.
  unfold split_target_from_training_data.
  destruct (column_index target_name (columns df)) as [j|] eqn:Hj.
  - pose proof (column_index_nth _ _ _ Hj) as Hn.
    rewrite drop_columns_present.
    2:{ intros l Hl. apply elem_of_singleton in Hl. subst.
        eapply nth_error_In; exact Hn. }
    simpl. rewrite drop_cells_singleton, !map_map. simpl.
    split; [eapply nth_error_In; exact Hn|].
    split; [reflexivity|].
    split.
    { intros Hin. apply List.filter_In in Hin as [_ Hin].
      rewrite String.eqb_refl in Hin. discriminate. }
    split; [reflexivity|]. split; [reflexivity|].
    exists j. split; [exact Hn|reflexivity].
  - split; [reflexivity|]. now apply column_index_none.
Qed.

(** ** The stage selector *)

Lemma setitem_loop_length (ps : list (nat * float)) :
  forall (score : list float) w out w',
    for_each (fun score (p : nat * float) => lift (setitem_array score (fst p) (snd p)))
             ps score w = (Ok out, w') ->
    length out = length score /\ w' = w.
Proof.
  induction ps as [|p ps IH]; intros score w out w' H; simpl in H.
  - apply ret_ok in H as [<- <-]. split; reflexivity.
  - apply bind_ok in H as (mid & w1 & Hset & Hrest).
    apply lift_ok in Hset as [Hset <-].
    apply IH in Hrest as [Hlen ->]. split; [|reflexivity].
    rewrite Hlen. unfold setitem_array in Hset.
    destruct (fst p <? length score)%nat; [|discriminate].
    inversion Hset. apply length_insert.
Qed.

Lemma zeros_ok (n : Z) (score : list float) :
  zeros n = Ok score -> 0 <= n /\ score = repeat (Some 0%Q) (Z.to_nat n).
Proof.
  unfold zeros. destruct (n <? 0) eqn:E; [discriminate|].
  intros H. inversion H. apply Z.ltb_ge in E. split; [exact E|reflexivity].
Qed.

(** What [heldout_score] leaves behind when it returns. *)
Lemma heldout_score_ok clf X y n w scores w' :
  heldout_score clf X y n w = (Ok scores, w') ->
  exists m,
    0 <= n /\ length scores = Z.to_nat n
    /\ self w' = mkNvT (training_data (self w)) (target_data (self w))
                       (output_summary_base_name (self w)) (threshold_value (self w))
                       (Some (mkClf (clf_with_coef clf) (clf_params clf) (Some m)))
                       (optimum_boosting_stages (self w)) (gbc_best_params (self w))
    /\ for_each (fun score (p : nat * float) => lift (setitem_array score (fst p) (snd p)))
                (combine (seq 0 (length (gbc_staged_loss m X y))) (gbc_staged_loss m X y))
                (repeat (Some 0%Q) (Z.to_nat n)) w' = (Ok scores, w').
Proof.
  unfold heldout_score. intros H.
  apply bind_ok in H as (clf' & w1 & Hfit & H).
  apply bind_ok in H as (u & w2 & Hset & H).
  apply bind_ok in H as (score0 & w3 & Hz & H).
  apply lift_ok in Hz as [Hz <-]. apply zeros_ok in Hz as [Hn ->].
  unfold fit in Hfit.
  apply bind_ok in Hfit as (m & w0 & Hm & Hret). apply ret_ok in Hret as [<- <-].
  simpl in H.
  pose proof (setitem_loop_length _ _ _ _ _ H) as [Hlen Hw]. subst w'.
  exists m. split; [exact Hn|]. split; [now rewrite Hlen, repeat_length|].
  split; [|exact H].
  unfold set_gbc_base, bind, get_self, set_self in Hset. inversion Hset; subst w2. simpl.
  unfold with_rng in Hm.
  destruct (gbc_fit (clf_params clf) X y (np_random w)) as [r g].
  inversion Hm; subst. reflexivity.
Qed.

Lemma argmin_scan_lt (xs : list float) :
  forall best best_i i, (best_i < i)%nat ->
                        (argmin_scan best best_i i xs < i + length xs)%nat.
Proof.
  induction xs as [|x xs IH]; intros best best_i i Hlt; simpl; [lia|].
  destruct (negb (notna best)); [lia|].
  destruct (negb (notna x) || flt x best).
  - specialize (IH x i (S i)). lia.
  - specialize (IH best best_i (S i)). lia.
Qed.

Lemma argmin_lt (xs : list float) (r : nat) :
  argmin xs = Ok r -> (r < length xs)%nat.
Proof.
  destruct xs as [|x xs]; simpl; [discriminate|].
  intros H. inversion H. pose proof (argmin_scan_lt xs x 0%nat 1%nat). lia.
Qed.

Lemma index_arange (n : Z) (i : nat) (k : Z) :
  index (arange n) i = Ok k -> k = Z.of_nat i /\ (i < Z.to_nat n)%nat.
Proof.
  unfold index, arange. destruct (nth_error _ i) as [v|] eqn:E; [|discriminate].
  intros H. inversion H; subst v.
  assert (Hi : (i < Z.to_nat n)%nat).
  { assert (Hs : nth_error (map Z.of_nat (seq 0 (Z.to_nat n))) i <> None) by congruence.
    apply nth_error_Some in Hs. now rewrite length_map, length_seq in Hs. }
  split; [|exact Hi].
  rewrite nth_error_map in E.
  rewrite nth_error_seq in E.
  destruct (i <? Z.to_nat n)%nat eqn:El.
  - simpl in E. inversion E. reflexivity.
  - apply Nat.ltb_ge in El. lia.
Qed.

(** What [find_min_boosting_stages] has done when it returns. *)
Lemma find_min_boosting_stages_ok df tgt params w k w' :
  find_min_boosting_stages df tgt params w = (Ok k, w') ->
  exists n m scores first best w1,
    n_estimators_of params = Ok n
    /\ length scores = Z.to_nat n
    /\ for_each (fun score (p : nat * float) => lift (setitem_array score (fst p) (snd p)))
                (combine (seq 0 (length (gbc_staged_loss m (as_matrix df) tgt)))
                         (gbc_staged_loss m (as_matrix df) tgt))
                (repeat (Some 0%Q) (Z.to_nat n)) w1 = (Ok scores, w1)
    /\ index scores 0 = Ok first
    /\ argmin (map (fun s => fsub s first) scores) = Ok best
    /\ k = Z.of_nat best
    /\ self w' = mkNvT (training_data (self w)) (target_data (self w))
                       (output_summary_base_name (self w)) (threshold_value (self w))
                       (Some (mkClf false params (Some m))) (Some k)
                       (gbc_best_params (self w)).
Proof.
  unfold find_min_boosting_stages, conform_data_for_ML. simpl. intros H.
  apply bind_ok in H as (u & w1 & Hset & H).
  apply bind_ok in H as (n & w2 & Hn & H). apply lift_ok in Hn as [Hn <-].
  apply bind_ok in H as (scores & w3 & Hscore & H).
  apply bind_ok in H as (first & w4 & Hfirst & H). apply lift_ok in Hfirst as [Hfirst <-].
  apply bind_ok in H as (best & w4 & Hbest & H). apply lift_ok in Hbest as [Hbest <-].
  apply bind_ok in H as (it & w4 & Hit & H). apply lift_ok in Hit as [Hit <-].
  apply bind_ok in H as (u' & w4 & Hopt & H). apply ret_ok in H as [<- <-].
  apply heldout_score_ok in Hscore as (m & _ & Hlen & Hself & Hfill).
  apply index_arange in Hit as [-> _].
  exists n, m, scores, first, best, w3.
  repeat (split; [assumption || reflexivity|]).
  unfold set_optimum_boosting_stages, bind, get_self, set_self in Hopt.
  inversion Hopt; subst w4. simpl. rewrite Hself. simpl.
  unfold set_gbc_base, bind, get_self, set_self in Hset. inversion Hset; subst w1.
  reflexivity.
Qed.

Lemma find_min_index_range df tgt params w k w' :
  find_min_boosting_stages df tgt params w = (Ok k, w') ->
  exists n, n_estimators_of params = Ok n /\ 0 <= k < n.
Proof.
  intros H.
  apply find_min_boosting_stages_ok in H
    as (n & m & scores & first & best & w1 & Hn & Hlen & _ & _ & Hbest & -> & _).
  exists n. split; [exact Hn|].
  apply argmin_lt in Hbest. rewrite length_map, Hlen in Hbest. lia.
Qed.

(** X8. When [find_min_boosting_stages] returns the stage index [k], the
    keywords hold an integer [n_estimators] and [0 <= k < n_estimators]: the
    index is a position of the score array, never the stage count itself.
    The index is stored in [self.optimum_boosting_stages], and
    [self.gbc_base] is the plain classifier built with the given keywords,
    fitted; the other attributes are as they were. *)
Theorem boosting_stage_index_in_range
    (training_df : DataFrame) (target_df : labels) (gbc_base_params : Params)
    (w : World) (k : Z) (w' : World) :
  find_min_boosting_stages training_df target_df gbc_base_params w = (Ok k, w') ->
  exists (n : Z) (m : model),
    n_estimators_of gbc_base_params = Ok n
    /\ 0 <= k < n
    /\ optimum_boosting_stages (self w') = Some k
    /\ gbc_base (self w') = Some (mkClf false gbc_base_params (Some m))
    /\ training_data (self w') = training_data (self w)
    /\ threshold_value (self w') = threshold_value (self w)
    /\ gbc_best_params (self w') = gbc_best_params (self w).
Proof.
  intros H.
  apply find_min_boosting_stages_ok in H
    as (n & m & scores & first & best & w1 & Hn & Hlen & _ & _ & Hbest & -> & Hself).
  exists n, m. split; [exact Hn|].
  apply argmin_lt in Hbest. rewrite length_map, Hlen in Hbest.
  split; [lia|]. rewrite Hself. simpl. repeat split.
Qed.

(** ** Re-optimisation and the keywords of the caller *)

Lemma n_estimators_of_insert (k : Z) (params : Params) :
  n_estimators_of (<["n_estimators" := PInt k]> params) = Ok k.
Proof. unfold n_estimators_of. now rewrite lookup_insert_eq. Qed.

Lemma rfecv_split_shrinks df tgt X_all y_all n_splits kfolds grid names st split w st' l w' :
  rfecv_split df tgt X_all y_all n_splits false kfolds grid true names st split w
    = (Ok (st', l), w') ->
  exists n k,
    n_estimators_of (gbc_init_params st) = Ok n
    /\ n_estimators_of (gbc_init_params st') = Ok k
    /\ optimun_boosting_stages l = Some k
    /\ 0 <= k < n.
Proof.
  intros H.
  apply rfecv_split_ok in H as (st1 & w1 & w2 & _ & Hre & H).
  apply reoptimize_stages_only in Hre as (k & w0 & Hk & Ho & Hp & _).
  destruct H as (_ & _ & _ & _ & _ & _ & _ & _ & _ & _ & _ & ->). simpl.
  apply find_min_index_range in Hk as (n & Hn & Hrange).
  exists n, k. rewrite Hp. split; [exact Hn|]. split; [apply n_estimators_of_insert|].
  split; assumption.
Qed.

(** X10. With [find_min_boosting_stages] on (and no grid search), every
    pass of the loop of [rfecv_feature_identify] lowers the [n_estimators]
    entry of the dictionary the caller passed as [gbc_init_params]: the new
    entry is the stage index just found, which is below the entry the pass
    started from, and the next pass starts from it. *)
Theorem stage_search_shrinks_n_estimators
    training_df target_df X_all y_all n_splits kfolds grid names st split w st' l w' :
  rfecv_split training_df target_df X_all y_all n_splits false kfolds grid true names
              st split w = (Ok (st', l), w') ->
  exists n k,
    n_estimators_of (gbc_init_params st) = Ok n
    /\ n_estimators_of (gbc_init_params st') = Ok k
    /\ optimun_boosting_stages l = Some k
    /\ 0 <= k < n.
Proof.
  intros H.
  apply rfecv_split_ok in H as (st1 & w1 & w2 & _ & Hre & H).
  apply reoptimize_stages_only in Hre as (k & w0 & Hk & Ho & Hp & _).
  destruct H as (_ & _ & _ & _ & _ & _ & _ & _ & _ & _ & _ & ->). simpl.
  apply find_min_index_range in Hk as (n & Hn & Hrange).
  exists n, k. rewrite Hp. split; [exact Hn|]. split; [apply n_estimators_of_insert|].
  split; assumption.
Qed.

Lemma stage_search_loop_bound df tgt X_all y_all n_splits kfolds grid names splits :
  forall st w st' w',
    splits <> [] ->
    for_each (fun st split =>
                bind (rfecv_split df tgt X_all y_all n_splits false kfolds grid true names
                                  st split)
                     (fun r => ret (fst r)))
             splits st w = (Ok st', w') ->
    exists n, n_estimators_of (gbc_init_params st) = Ok n
              /\ Z.of_nat (length splits) <= n.
Proof.
  induction splits as [|split splits IH]; intros st w st' w' Hne H; [congruence|].
  simpl in H.
  apply bind_ok in H as (mid & w1 & Hbody & Hrest).
  apply bind_ok in Hbody as ([mid' l] & w2 & Hsplit & Hret).
  apply ret_ok in Hret as [<- <-]. simpl in Hrest.
  apply rfecv_split_shrinks in Hsplit as (n & k & Hn & Hk & _ & Hrange).
  exists n. split; [exact Hn|].
  destruct splits as [|split' splits].
  - simpl. lia.
  - apply IH in Hrest as (n' & Hn' & Hlen); [|discriminate].
    rewrite Hk in Hn'. inversion Hn'; subst n'.
    simpl length in *. lia.
Qed.

(** X11. With [find_min_boosting_stages] on (and no grid search),
    [rfecv_feature_identify] can complete at most [n_estimators] splits:
    when it returns, the split generator gave no split at all, or the
    keywords hold an integer [n_estimators] that is at least the number of
    splits. With more splits than stages the call always raises. *)
Theorem stage_search_bounds_the_splits
    (training_df : DataFrame) (target_df : labels) (n_splits : Z) (test_size : Q)
    (random_state : Z) (params : Params) (kfolds : Z) (grid : Grid)
    (w : World) (st : RfecvLocals) (w' : World) (splits : list (list nat * list nat)) :
  sss_split n_splits test_size random_state (as_matrix training_df) target_df = Ok splits ->
  rfecv_feature_identify training_df target_df n_splits test_size random_state false
                         params kfolds grid true w = (Ok st, w') ->
  splits = []
  \/ exists n, n_estimators_of params = Ok n /\ Z.of_nat (length splits) <= n.
Proof.
  intros Hsplits H. unfold rfecv_feature_identify, conform_data_for_ML in H.
  apply bind_ok in H as (splits' & w1 & Hs & Hloop).
  apply lift_ok in Hs as [Hs <-]. rewrite Hsplits in Hs. inversion Hs; subst splits'.
  destruct splits as [|split splits]; [left; reflexivity|right].
  apply stage_search_loop_bound in Hloop; [exact Hloop|discriminate].
Qed.

(** ** The grid search inside the loop *)

Lemma reoptimize_grid_never_returns df tgt fm grid st w r w' :
  reoptimize df tgt true fm grid st w = (Ok r, w') -> False.
Proof.
  unfold reoptimize. intros H.
  apply bind_ok in H as ([st0 o] & w0 & _ & H).
  apply bind_ok in H as (found & w1 & _ & H).
  apply bind_ok in H as (obj & w2 & Hobj & H).
  apply bind_ok in H as (kw & w3 & Hkw & _).
  apply lift_ok in Hkw as [Hkw _].
  destruct o as [k|].
  - apply lift_ok in Hobj as [Hobj _]. discriminate.
  - apply ret_ok in Hobj as [<- _]. discriminate.
Qed.

(** X12. With [cv_grid_search] on, no pass of the loop of
    [rfecv_feature_identify] completes: what [find_optimum_gbc_parameters]
    returns is a classifier, and the code then assigns an item to it or
    unpacks it as keywords, which raises. So the call returns only when the
    split generator gave no split, and then with empty collections and
    nothing printed or changed. *)
Theorem grid_search_flag_never_completes_a_split
    (training_df : DataFrame) (target_df : labels) (n_splits : Z) (test_size : Q)
    (random_state : Z) (params : Params) (kfolds : Z) (grid : Grid) (find_min : bool)
    (w : World) (st : RfecvLocals) (w' : World) :
  rfecv_feature_identify training_df target_df n_splits test_size random_state true
                         params kfolds grid find_min w = (Ok st, w') ->
  sss_split n_splits test_size random_state (as_matrix training_df) target_df = Ok []
  /\ st = mkLocals [] [] [] [] [] [] [] params (GradientBoostingClassifierrWithCoef params) 0
  /\ w' = w.
Proof.
  unfold rfecv_feature_identify, conform_data_for_ML. intros H.
  apply bind_ok in H as (splits & w1 & Hs & Hloop).
  apply lift_ok in Hs as [Hs <-].
  destruct splits as [|split splits].
  - simpl in Hloop. apply ret_ok in Hloop as [<- <-]. repeat split. exact Hs.
  - exfalso. simpl in Hloop.
    apply bind_ok in Hloop as (mid & w1 & Hbody & _).
    apply bind_ok in Hbody as ([mid' l] & w2 & Hsplit & _).
    apply rfecv_split_ok in Hsplit as (st1 & wa & wb & _ & Hre & _).
    eapply reoptimize_grid_never_returns; exact Hre.
Qed.

(** ** The classifier that is fitted in the loop *)

Lemma reoptimize_no_grid_keeps_gbc df tgt fm grid st w st1 o w1 :
  reoptimize df tgt false fm grid st w = (Ok (st1, o), w1) -> gbc st1 = gbc st.
Proof.
  destruct fm; intros H.
  - now apply reoptimize_stages_only in H as (k & w0 & _ & _ & _ & Hg).
  - unfold reoptimize in H.
    apply bind_ok in H as ([st0 o0] & w0 & H0 & H).
    apply ret_ok in H0 as [E0 _]. apply ret_ok in H as [E _].
    inversion E0; inversion E; subst. reflexivity.
Qed.

Lemma fit_keeps_keywords (c : Classifier) X y w c' w' :
  fit c X y w = (Ok c', w') ->
  clf_params c' = clf_params c /\ clf_with_coef c' = clf_with_coef c
  /\ clf_model c' <> None.
Proof.
  unfold fit. intros H.
  apply bind_ok in H as (m & w1 & _ & H). apply ret_ok in H as [<- _].
  simpl. repeat split. discriminate.
Qed.

(** X13. Without the grid search, the classifier of the loop keeps the
    keywords it was built with: in every pass the estimator handed to
    [RFECV] is the classifier the pass started with, [rfecv.estimator_] and
    the classifier fitted again on the trimmed train partition have its
    keywords and class, and both are fitted. The stage count that
    [find_min_boosting_stages] may have stored in [gbc_init_params] during
    the pass reaches neither. *)
Theorem loop_classifier_keeps_its_keywords
    training_df target_df X_all y_all n_splits kfolds grid find_min names st split w st' l w' :
  rfecv_split training_df target_df X_all y_all n_splits false kfolds grid find_min names
              st split w = (Ok (st', l), w') ->
  estimator (rfecv l) = gbc st
  /\ clf_params (estimator_ (rfecv l)) = clf_params (gbc st)
  /\ clf_with_coef (estimator_ (rfecv l)) = clf_with_coef (gbc st)
  /\ clf_model (estimator_ (rfecv l)) <> None
  /\ gbc st' = gbc_refit l
  /\ clf_params (gbc st') = clf_params (gbc st)
  /\ clf_with_coef (gbc st') = clf_with_coef (gbc st)
  /\ clf_model (gbc st') <> None.
Proof.
  intros H.
  apply rfecv_split_ok in H
    as (st1 & w1 & w2 & _ & Hre & Hfit & _ & _ & _ & _ & Hrefit & _ & _ & _ & _ & _ & ->).
  apply reoptimize_no_grid_keeps_gbc in Hre. rewrite Hre in *.
  apply rfecv_fit_ok in Hfit as (X_r & w0 & Hest & _ & _ & Hfinal).
  apply fit_keeps_keywords in Hfinal as (F1 & F2 & F3).
  apply fit_keeps_keywords in Hrefit as (R1 & R2 & R3).
  simpl. repeat split; assumption.
Qed.

(** ** The retained names and the trimmed partitions *)

Lemma select_nil_r {A} (mask : list bool) : select mask ([] : list A) = [].
Proof. unfold select. now rewrite combine_nil. Qed.

Lemma skipn_S_tl {A} (l : list A) : forall i, skipn (S i) l = tl (skipn i l).
Proof.
  induction l as [|x l IH]; intros [|i]; try reflexivity.
  change (skipn (S (S i)) (x :: l)) with (skipn (S i) l).
  change (skipn (S i) (x :: l)) with (skipn i l). apply IH.
Qed.

Lemma skipn_nth_error {A} (l : list A) : forall i x,
  nth_error l i = Some x -> skipn i l = x :: skipn (S i) l.
Proof.
  induction l as [|y l IH]; intros [|i] x E; simpl in E; try discriminate.
  - inversion E. reflexivity.
  - change (skipn (S i) (y :: l)) with (skipn i l).
    change (skipn (S (S i)) (y :: l)) with (skipn (S i) l). now apply IH.
Qed.

Lemma name_loop_select (ids : list bool) (names : list string) :
  forall i acc out,
    name_loop ids names i acc = Ok out ->
    out = (acc ++ select ids (skipn i names))%list.
Proof.
  induction ids as [|b ids IH]; intros i acc out H; simpl in H.
  - inversion H. unfold select. simpl. now rewrite app_nil_r.
  - destruct b.
    + destruct (nth_error names i) as [name|] eqn:E; [|discriminate].
      apply IH in H. subst out.
      rewrite (skipn_nth_error _ _ _ E), select_cons, <- app_assoc. reflexivity.
    + apply IH in H. subst out. f_equal.
      rewrite skipn_S_tl.
      destruct (skipn i names) as [|n rest]; simpl.
      * now rewrite !select_nil_r.
      * now rewrite select_cons.
Qed.

Lemma select_sublist {A} (mask : list bool) (xs : list A) : sublist (select mask xs) xs.
Proof.
  revert xs. induction mask as [|b mask IH]; intros [|x xs].
  - constructor.
  - unfold select. simpl. apply sublist_nil_l.
  - rewrite select_nil_r. constructor.
  - rewrite select_cons. destruct b; constructor; apply IH.
Qed.

(** X14. In every pass the retained names are the feature names at the true
    positions of the mask of [RFECV]: a part of the column names of the
    training frame, in the order of the columns. *)
Theorem retained_names_follow_the_mask
    training_df target_df X_all y_all n_splits cv kfolds grid find_min names st split w st' l w' :
  rfecv_split training_df target_df X_all y_all n_splits cv kfolds grid find_min names
              st split w = (Ok (st', l), w') ->
  nameList l = select (supPort l) names
  /\ sublist (nameList l) names.
Proof.
  intros H.
  apply rfecv_split_ok in H as (st1 & w1 & w2 & _ & _ & _ & _ & Hnames & _).
  apply name_loop_select in Hnames. simpl in Hnames.
  split; [exact Hnames|]. rewrite Hnames. apply select_sublist.
Qed.

Lemma select_length {A} (mask : list bool) (xs : list A) :
  length xs = length mask ->
  length (select mask xs) = length (List.filter id mask).
Proof.
  revert xs. induction mask as [|b mask IH]; intros [|x xs] Hlen; simpl in Hlen;
    try discriminate; [reflexivity|].
  rewrite select_cons. destruct b; simpl; rewrite IH by lia; reflexivity.
Qed.

Lemma transform_ok (support : list bool) (X X_r : matrix) :
  transform support X = Ok X_r ->
  length X_r = length X
  /\ Forall (fun r => length r = length (List.filter id support)) X_r.
Proof.
  unfold transform.
  destruct (forallb (fun r => (length r =? length support)%nat) X) eqn:E; [|discriminate].
  intros H. inversion H; subst X_r. split; [apply length_map|].
  apply List.Forall_forall. intros r Hr. apply in_map_iff in Hr as (r0 & <- & Hr0).
  apply select_length. rewrite forallb_forall in E.
  apply Nat.eqb_eq. now apply E.
Qed.

(** X15. In every pass the trimmed train and holdout partitions have the
    rows of the partitions they come from, and each of their rows has
    exactly one cell per retained name. *)
Theorem trimmed_partitions_have_retained_width
    training_df target_df X_all y_all n_splits cv kfolds grid find_min names st split w st' l w' :
  rfecv_split training_df target_df X_all y_all n_splits cv kfolds grid find_min names
              st split w = (Ok (st', l), w') ->
  length (X_trimTrainSet l) = length (X_train l)
  /\ length (X_trimHoldoutSet l) = length (X_holdout l)
  /\ Forall (fun r => length r = length (nameList l)) (X_trimTrainSet l)
  /\ Forall (fun r => length r = length (nameList l)) (X_trimHoldoutSet l).
Proof.
  intros H.
  pose proof (rfecv_split_names _ _ _ _ _ _ _ _ _ _ _ _ _ _ _ _ H) as [Hn _].
  apply rfecv_split_ok in H as (st1 & w1 & w2 & _ & _ & _ & _ & _ & Ht1 & Ht2 & _).
  apply transform_ok in Ht1 as [L1 F1]. apply transform_ok in Ht2 as [L2 F2].
  rewrite Hn. repeat split; assumption.
Qed.

(** ** The summary table and the files written *)

Lemma condition_run_written test_data trig fneg athr crit w out w' :
  condition_run test_data trig fneg athr crit w = (Ok out, w') ->
  written w' = written w.
Proof.
  unfold condition_run. intros H.
  apply bind_ok in H as (td & w1 & Hthr & H).
  assert (Hw1 : written w1 = written w).
  { destruct athr.
    - unfold apply_detection_threshold in Hthr.
      destruct (column_index trig _); [|now apply raise_ok in Hthr].
      apply bind_ok in Hthr as (u & w2 & Hset & Hret). apply ret_ok in Hret as [_ <-].
      unfold set_threshold_value, bind, get_self, set_self in Hset.
      inversion Hset. reflexivity.
    - now apply ret_ok in Hthr as [_ ->]. }
  rewrite <- Hw1.
  destruct crit as [[|c cs]|].
  - now apply ret_ok in H as [_ ->].
  - apply bind_ok in H as (s & w2 & Hs & H).
    unfold get_self in Hs. inversion Hs; subst.
    now apply lift_ok in H as [_ ->].
  - now apply ret_ok in H as [_ ->].
Qed.

Lemma track_probabilities_written class_proba tcp w counts w' :
  track_probabilities class_proba tcp w = (Ok counts, w') ->
  written w' = written w.
Proof.
  unfold track_probabilities. destruct tcp as [|t0 tcp]; intros H.
  - now apply ret_ok in H as [_ ->].
  - apply bind_ok in H as (u & w1 & Hp & H).
    unfold print in Hp. inversion Hp; subst w1; clear Hp.
    apply bind_ok in H as (a0 & w2 & Ha & H). apply lift_ok in Ha as [_ <-].
    apply bind_ok in H as (a1 & w3 & Hb & H). apply lift_ok in Hb as [_ <-].
    apply ret_ok in H as [_ <-]. reflexivity.
Qed.

(** The file that one pass of the loop over the runs writes. *)
Lemma classify_run_written gbc out base tcp trig fneg athr crit tpc test w l w' :
  classify_run gbc out base tcp trig fneg athr crit tpc test w = (Ok l, w') ->
  written w'
  = (written w
     ++ if tpc
        then [(path_join out ["filtered_data";
                                   ("filtered_" ++ drop_last4 (fst test) ++ base)%string],
               CsvFrame (X_test_preserved l))]
        else [])%list.
Proof.
  unfold classify_run. intros H.
  apply bind_ok in H as (td & w1 & Hcond & H).
  apply condition_run_written in Hcond.
  apply bind_ok in H as (c & w2 & Hgbc & H).
  destruct gbc as [c0|]; [|now apply raise_ok in Hgbc].
  apply ret_ok in Hgbc as [-> <-].
  apply bind_ok in H as (preds & w3 & Hpred & H).
  apply bind_ok in H as (proba & w4 & Hproba & H).
  apply bind_ok in H as (counts & w5 & Hcounts & H).
  unfold predict in Hpred. unfold predict_proba in Hproba.
  destruct (clf_model c) as [m|]; [|now apply raise_ok in Hpred].
  apply lift_ok in Hpred as [_ <-]. apply lift_ok in Hproba as [_ <-].
  apply track_probabilities_written in Hcounts.
  destruct tpc.
  - apply bind_ok in H as (pres & w6 & Hset & H). apply lift_ok in Hset as [_ <-].
    apply bind_ok in H as (u & w7 & Hcsv & H).
    apply ret_ok in H as [<- <-]. unfold to_csv in Hcsv. inversion Hcsv; subst w7.
    simpl. now rewrite Hcounts, Hcond.
  - apply ret_ok in H as [<- <-]. now rewrite app_nil_r, Hcounts, Hcond.
Qed.

Lemma classify_loop_tracks gbc out base tcp trig fneg athr crit tpc test_files :
  forall t w t' w',
    for_each (fun t test =>
                bind (classify_run gbc out base tcp trig fneg athr crit tpc test)
                     (fun l => ret (track_run t l)))
             test_files t w = (Ok t', w') ->
    exists frames : list DataFrame,
      length frames = length test_files
      /\ map run_name (X_test_data_track t')
         = (map run_name (X_test_data_track t)
            ++ if tpc then map fst test_files else [])%list
      /\ written w'
         = (written w
            ++ if tpc
               then map (fun p : (string * DataFrame) * DataFrame =>
                           (path_join out ["filtered_data";
                                           ("filtered_" ++ drop_last4 (fst (fst p))
                                                        ++ base)%string],
                            CsvFrame (snd p)))
                        (combine test_files frames)
               else [])%list.
Proof.
  induction test_files as [|test files IH]; intros t w t' w' H; simpl in H.
  - apply ret_ok in H as [<- <-]. exists []. split; [reflexivity|].
    destruct tpc; simpl; rewrite !app_nil_r; split; reflexivity.
  - apply bind_ok in H as (mid & w1 & Hbody & Hrest).
    apply bind_ok in Hbody as (l & w2 & Hrun & Hret). apply ret_ok in Hret as [<- <-].
    apply IH in Hrest as (frames & Hlen & Hnames & Hw).
    pose proof (classify_run_written _ _ _ _ _ _ _ _ _ _ _ _ _ Hrun) as Hw1.
    apply classify_run_locals in Hrun as (c & m & _ & _ & _ & _ & _ & _ & _ & Hrow).
    exists (X_test_preserved l :: frames). split; [simpl; now rewrite Hlen|].
    rewrite Hnames, Hw, Hw1. unfold track_run; simpl. rewrite Hrow.
    destruct tpc; simpl.
    + rewrite map_app. simpl. rewrite <- !app_assoc. split; reflexivity.
    + rewrite !app_nil_r. split; reflexivity.
Qed.

(** X16. When [apply_trained_classification] returns with
    [track_particle_counts] on, the summary table has exactly one row per
    run file, in the order of the files and under their names, and the call
    has written one annotated frame per run, in that order, each at the
    path that [os.path.join] makes of the output directory, [filtered_data]
    and [filtered_] followed by the file name without its last four
    characters and the base name, and then, last, the summary table it
    returns, at the path joined from the output directory, [data_summaries]
    and the base name. With [track_particle_counts] off the table is empty
    and only that empty summary is written. *)
Theorem summary_has_one_row_per_run
    test_files out base gbc_fitted tcp trig training_df target_df fneg athr crit tpc
    (w : World) (table : list SummaryRow) (w' : World) :
  apply_trained_classification test_files out base gbc_fitted tcp trig training_df
                               target_df fneg athr crit tpc w = (Ok table, w') ->
  map run_name table = (if tpc then map fst test_files else [])
  /\ exists frames : list DataFrame,
       length frames = length test_files
       /\ written w'
          = (written w
             ++ (if tpc
                 then map (fun p : (string * DataFrame) * DataFrame =>
                             (path_join out ["filtered_data";
                                             ("filtered_" ++ drop_last4 (fst (fst p))
                                                          ++ base)%string],
                              CsvFrame (snd p)))
                          (combine test_files frames)
                 else [])
             ++ [(path_join out ["data_summaries"; base], CsvSummary table)])%list.
Proof.
  unfold apply_trained_classification, conform_data_for_ML. intros H.
  apply bind_ok in H as (fitted & w1 & Hfit & H).
  apply bind_ok in H as (tracks & w2 & Hloop & H).
  apply bind_ok in H as (u & w3 & Hcsv & H).
  apply ret_ok in H as [<- <-].
  apply classify_loop_tracks in Hloop as (frames & Hlen & Hnames & Hw).
  split; [exact Hnames|].
  exists frames. split; [exact Hlen|].
  unfold to_csv in Hcsv. inversion Hcsv; subst w3. simpl. rewrite Hw.
  assert (Hw1 : written w1 = written w).
  { unfold fit in Hfit. apply bind_ok in Hfit as (m & w0 & Hm & Hret).
    apply ret_ok in Hret as [_ <-]. unfold with_rng in Hm.
    destruct (gbc_fit _ _ _ _) as [r g]. inversion Hm. reflexivity. }
  rewrite Hw1, <- app_assoc. reflexivity.
Qed.

(** ** What the total counts *)

Lemma filter_length_disjoint {A} (f g : A -> bool) (xs : list A) :
  (forall x, f x = true -> g x = false) ->
  (length (List.filter f xs) + length (List.filter g xs)
   = length (List.filter (fun x => f x || g x) xs))%nat.
Proof.
  intros Hfg. induction xs as [|x xs IH]; [reflexivity|]. simpl.
  destruct (f x) eqn:Ef; simpl.
  - rewrite (Hfg x Ef). simpl. lia.
  - destruct (g x); simpl; lia.
Qed.

Lemma count_zero_and_one (xs : labels) :
  count xs 1 + count xs 0
  = Z.of_nat (length (List.filter (fun v => (1 =? v) || (0 =? v)) xs)).
Proof.
  unfold count. rewrite <- Nat2Z.inj_add. f_equal.
  apply filter_length_disjoint. intros x Hx.
  apply Z.eqb_eq in Hx. subst x. reflexivity.
Qed.

Lemma inject_Z_plus_eq (a b : Z) : (inject_Z a + inject_Z b)%Q = inject_Z (a + b).
Proof. unfold Qplus, inject_Z. simpl. now rewrite !Z.mul_1_r. Qed.

(** X17. The total of a summary row counts the rows of the run that the
    classifier labelled 0 or 1 and no other: it is the number of such
    labels among the predictions, so it is at most the number of rows
    predicted, and it is that number when the classifier only ever answers
    0 or 1. *)
Theorem total_counts_labels_0_and_1
    gbc out base tcp trig fneg athr crit tpc test w l w' (r : SummaryRow) :
  classify_run gbc out base tcp trig fneg athr crit tpc test w = (Ok l, w') ->
  X_test_data l = Some r ->
  total_particle_count r
  = inject_Z (Z.of_nat (length (List.filter (fun v => (1 =? v) || (0 =? v))
                                            (X_test_predicted l))))
  /\ (total_particle_count r <= inject_Z (Z.of_nat (length (X_test_predicted l))))%Q
  /\ (Forall (fun v => v = 0 \/ v = 1) (X_test_predicted l) ->
      total_particle_count r = inject_Z (Z.of_nat (length (X_test_predicted l)))).
Proof.
  intros H Hr.
  apply classify_run_locals in H as (c & m & _ & _ & _ & _ & _ & _ & _ & Hrow).
  rewrite Hr in Hrow. destruct tpc; [|discriminate]. inversion Hrow; subst r. simpl.
  rewrite inject_Z_plus_eq, count_zero_and_one.
  split; [reflexivity|]. split.
  - rewrite <- Zle_Qle. apply inj_le. apply List.filter_length_le.
  - intros Hall. do 2 f_equal. f_equal.
    apply filter_all_true. eapply List.Forall_impl; [|exact Hall].
    intros v [->| ->]; reflexivity.
Qed.

End MoreProperties.

(** * Runs on the sample data *)

Import Stump Examples.

(** C10 on a default instance: with [training_data] the empty list, asking
    for the critical isotope 140Ce leaves the three channels of the run. *)
Lemma critical_restriction_on_default_instance :
  condition_run (reset_index run_other) "140Ce" true true None world0
    = (Ok run_other_conditioned, world_conditioned)
  /\ condition_run (reset_index run_other) "140Ce" true true (Some ["140Ce"]) world0
     = (Ok run_other_conditioned, world_conditioned).
Proof.
  assert (H : condition_run (reset_index run_other) "140Ce" true true None world0
              = (Ok run_other_conditioned, world_conditioned))
    by (vm_compute; reflexivity).
  split; [exact H|].
  destruct (critical_restriction_uses_training_data _ _ _ _ "140Ce" [] _ _ _ H)
    as (E1 & _ & E3).
  rewrite E1. rewrite E3; reflexivity.
Defined.

(** C4 on [run_low], on an instance that recorded the threshold 5. *)
Lemma inference_threshold_on_run_low :
  column_index "140Ce" (columns run_low) = Some 0%nat
  /\ exists out w',
       condition_run run_low "140Ce" false true None world_threshold5 = (Ok out, w')
       /\ columns out = columns run_low
       /\ rows out
          = List.filter (fun r => fge (cell_at 0 r) 0 && forallb notna (snd r)) (rows run_low)
       /\ threshold_value (self w') = Some 0%Q.
Proof.
  split; [reflexivity|].
  apply (inference_threshold_is_default run_low "140Ce" false world_threshold5 0%nat).
  reflexivity.
Defined.

(** C4 fails as stated. The instance has recorded the threshold 5, the
    inference call keeps the particle whose trigger value is 3, and the
    summary counts both particles of the run. *)
Lemma inference_ignores_recorded_threshold :
  threshold_value (self world_threshold5) = Some 5%Q
  /\ fst (condition_run (reset_index run_low) "140Ce" true true None world_threshold5)
     = Ok run_low
  /\ rows run_low <> List.filter (fun r => fge (cell_at 0 r) 5) (rows run_low)
  /\ fst (apply_trained_classification [("run.csv", run_low)] "out" "_summary.csv"
            (GradientBoostingClassifier params5) [0.1%Q; 0.1%Q] "140Ce" train4 target4
            true true None true world_threshold5)
     = Ok [mkRow "run.csv" 2%Q 2%Q 0%Q (Some 2) (Some 0)].
Proof.
  split; [vm_compute; reflexivity|].
  split; [vm_compute; reflexivity|].
  split; [vm_compute; intros H; discriminate H|].
  vm_compute; reflexivity.
Defined.

(** C5 fails as stated. With the thresholds (0.9, 0.1) the natural count
    above the threshold is 2 - 3 = -1. *)
Lemma proba_thresh_count_negative :
  fst (apply_trained_classification [("run.csv", run_other)] "out" "_summary.csv"
         (GradientBoostingClassifier params5) [0.9%Q; 0.1%Q] "140Ce" train4 target4
         true true None true world0)
  = Ok [mkRow "run.csv" 3%Q 2%Q 1%Q (Some (-1)) (Some 1)].
Proof. vm_compute; reflexivity. Defined.

(** C5 on [run_other] with the default thresholds (0.1, 0.1). *)
Lemma proba_thresh_counts_on_run_other :
  match classify_run (Some classifier4) "out" "_summary.csv"
                     [0.1%Q; 0.1%Q] "140Ce" true true None true ("run.csv", run_other)
                     world0 with
  | (Ok l, _) =>
      match proba_counts l with
      | Some c => 0 <= total_nat_above_proba_thresh c <= total_natural_by_proba c
      | None => False
      end
  | (Raise _, _) => False
  end.
Proof.
  destruct (classify_run (Some classifier4) "out" "_summary.csv"
                         [0.1%Q; 0.1%Q] "140Ce" true true None true ("run.csv", run_other)
                         world0) as [[l|e] w'] eqn:H;
    [|vm_compute in H; discriminate H].
  destruct (proba_counts l) as [c|] eqn:Hc.
  - destruct (proba_thresh_counts_bounded _ _ _ _ _ _ _ _ _ _ _ _ _ _ H Hc)
      as (t0 & t1 & rest & E & B1 & _ & N1 & _).
    inversion E; subst. split; [apply N1; unfold Qle; simpl; lia|exact B1].
  - vm_compute in H. inversion H; subst. discriminate Hc.
Defined.


(** C3 fails as stated. The run lacks the trained channel 88Sr and has
    208Pb in its place; it is converted and classified without any error
    and gets its summary row. *)
Lemma mismatching_run_gets_summary_row :
  columns run_other <> columns train4
  /\ ~ In "88Sr" (columns run_other)
  /\ fst (apply_trained_classification [("run.csv", run_other)] "out" "_summary.csv"
            (GradientBoostingClassifier params5) [0.1%Q; 0.1%Q] "140Ce" train4 target4
            true true None true world0)
     = Ok [mkRow "run.csv" 3%Q 2%Q 1%Q (Some 2) (Some 1)].
Proof.
  split; [intros H; discriminate H|].
  split; [simpl; intros [H|[H|[H|[]]]]; discriminate H|].
  vm_compute; reflexivity.
Defined.

(** C3 on [run_other]: the stump accepts its array, so it gets a row. *)
Lemma summary_row_for_run_other :
  exists l w2 r,
    classify_run (Some classifier4) "out" "_summary.csv"
                 [0.1%Q; 0.1%Q] "140Ce" true true None true ("run.csv", run_other) world0
      = (Ok l, w2)
    /\ X_test l = as_matrix run_other_conditioned
    /\ X_test_predicted l = [1; 0; 1]
    /\ X_test_data l = Some r
    /\ run_name r = fst ("run.csv", run_other).
Proof.
  eapply (summary_row_without_schema_check classifier4 stump4
            "out" "_summary.csv" [0.1%Q; 0.1%Q] "140Ce" true true None
            ("run.csv", run_other) world0 run_other_conditioned world_conditioned).
  - reflexivity.
  - vm_compute; reflexivity.
  - vm_compute; reflexivity.
  - vm_compute; reflexivity.
  - vm_compute; reflexivity.
  - vm_compute; intros H; discriminate H.
Defined.

(** C6 with the stage index 3 on the instance. *)
Lemma find_optimum_with_stage_index_3 :
  exists found w',
    find_optimum_gbc_parameters 5 train4 target4 grid_depth world_stages3 = (Ok found, w')
    /\ clf_model found = None
    /\ clf_params found !! "n_estimators" = Some (PInt 3).
Proof.
  edestruct (find_optimum_overrides_nonzero_stages 5 train4 target4 grid_depth world_stages3)
    as (found & w' & H1 & H2 & _ & _ & _ & H6);
    [vm_compute; reflexivity | vm_compute; reflexivity | vm_compute; reflexivity |].
  exists found, w'. split; [exact H1|]. split; [exact H2|].
  apply H6. discriminate.
Defined.

(** C6 fails as stated. With a single boosting stage the stage selector
    returns the index 0; the classifier that comes back has the best
    parameters of the grid search and no [n_estimators] at all, so it is not
    configured with 0 stages. *)
Lemma stage_index_0_is_not_applied :
  fst (find_min_boosting_stages train4 target4 params1 world0) = Ok 0
  /\ optimum_boosting_stages (self world_stages0) = Some 0
  /\ exists found w',
       find_optimum_gbc_parameters 5 train4 target4 grid_depth world_stages0 = (Ok found, w')
       /\ clf_params found !! "max_depth" = Some (PInt 3)
       /\ clf_params found !! "n_estimators" = None
       /\ clf_params found !! "n_estimators" <> Some (PInt 0).
Proof.
  split; [vm_compute; reflexivity|].
  split; [vm_compute; reflexivity|].
  eexists. eexists. split; [vm_compute; reflexivity|].
  split; [vm_compute; reflexivity|].
  split; [vm_compute; reflexivity|].
  vm_compute; intros H; discriminate H.
Defined.



(** C7 fails as stated. Two splits, each retaining two channels: the
    collection of retained names has four rows, not two. *)
Lemma name_rows_exceed_the_splits :
  exists st w',
    rfecv_feature_identify train4 target4 2 0.25 0 false params5 5 ∅ false world0
      = (Ok st, w')
    /\ length (optimumLengthAll st) = 2%nat
    /\ nameListAll st = [(0, "140Ce"); (1, "88Sr"); (0, "140Ce"); (1, "88Sr")]
    /\ length (nameListAll st) <> Z.to_nat 2.
Proof.
  eexists. eexists. split; [vm_compute; reflexivity|].
  split; [vm_compute; reflexivity|].
  split; [vm_compute; reflexivity|].
  vm_compute; intros H; discriminate H.
Defined.

(** C7 on two splits of [train4]. *)
Lemma aggregates_on_two_splits :
  match fst (rfecv_feature_identify train4 target4 2 0.25 0 false params5 5 ∅ false
                                    world0) with
  | Ok st =>
      length (classScoreAll st) = 2%nat
      /\ length (featureImportancesAll st) = 2%nat
      /\ length (rfecvGridScoresAll st) = 2%nat
  | Raise _ => False
  end.
Proof.
  destruct (rfecv_feature_identify train4 target4 2 0.25 0 false params5 5 ∅ false world0)
    as [[st|e] w'] eqn:H; simpl; [|vm_compute in H; discriminate H].
  edestruct (aggregates_follow_the_splits train4 target4 2 0.25 0 false params5 5 ∅ false
                                          world0 st w')
    as (ls & _ & _ & _ & _ & _ & _ & _ & _ & _ & _ & L1 & _ & L3 & _ & _ & L6);
    [vm_compute; reflexivity | vm_compute; reflexivity | exact H |].
  repeat split; assumption.
Defined.


(** * More runs on the sample data *)

(** X1 on [run_low] at the threshold 5: only the particle at 7 is left. *)
Lemma detection_threshold_on_run_low :
  column_index "140Ce" (columns run_low) = Some 0%nat
  /\ exists out w',
       apply_detection_threshold run_low "140Ce" 5%Q world0 = (Ok out, w')
       /\ (forall r, In r (rows out) -> fge (cell_at 0 r) 5 = true)
       /\ threshold_value (self w') = Some 5%Q.
Proof.
  split; [reflexivity|].
  destruct (detection_threshold_keeps_rows_at_or_above run_low "140Ce" 5%Q world0 0%nat
              eq_refl) as (out & w' & H & _ & _ & Hrows & Ht & _).
  exists out, w'. split; [exact H|]. split; [|exact Ht].
  intros r Hr. now apply Hrows in Hr.
Defined.

(** X2 on [run_low]: the threshold 0, then 5. *)
Lemma detection_thresholds_on_run_low :
  exists mid w1 out w2,
    apply_detection_threshold run_low "140Ce" 0%Q world0 = (Ok mid, w1)
    /\ apply_detection_threshold mid "140Ce" 5%Q w1 = (Ok out, w2)
    /\ apply_detection_threshold run_low "140Ce" 5%Q world0 = (Ok out, w2).
Proof.
  apply (detection_thresholds_compose run_low "140Ce" 0%Q 5%Q world0 0%nat eq_refl).
  unfold Qle; simpl; lia.
Defined.

(** X3 on [run_other]. *)
Lemma zero_threshold_on_run_other :
  rectangular run_other
  /\ exists w',
       condition_run run_other "140Ce" true true None world0
         = (Ok (filter_negative run_other), w')
       /\ threshold_value (self w') = Some 0%Q
       /\ fst (condition_run run_other "140Ce" true false None world0)
          = Ok (filter_negative run_other).
Proof.
  assert (H : rectangular run_other) by (repeat constructor).
  split; [exact H|].
  exact (zero_threshold_after_negative_filter run_other "140Ce" world0 0%nat H eq_refl).
Defined.

(** X4 on two run files that both have the trigger channel. *)
Lemma trigger_in_both_runs :
  match returned (apply_trained_classification two_runs "out" "_summary.csv"
                    (GradientBoostingClassifier params5) [0.1%Q; 0.1%Q] "140Ce" train4
                    target4 true true None true world0) with
  | Some _ => Forall (fun test : string * DataFrame => In "140Ce" (columns (snd test)))
                     two_runs
  | None => False
  end.
Proof.
  assert (Hs : is_some (returned (apply_trained_classification two_runs "out"
                 "_summary.csv" (GradientBoostingClassifier params5) [0.1%Q; 0.1%Q] "140Ce"
                 train4 target4 true true None true world0)) = true)
    by (vm_compute; reflexivity).
  destruct (returned _) as [table|] eqn:Hv; [|discriminate Hs].
  apply returned_some in Hv.
  exact (classification_needs_trigger_in_every_run _ _ _ _ _ _ _ _ _ _ _ _ _ _ Hv).
Defined.

(** X5 on [train4]: 208Pb is not a column and is ignored. *)
Lemma critical_channels_of_train4 :
  rectangular train4
  /\ filter_noncritical_isotopes train4 ["88Sr"; "140Ce"; "208Pb"]
     = Ok (mkFrame ["140Ce"; "88Sr"]
                   [ (0, [cell 5; cell 2]); (1, [cell 0; cell 1]);
                     (2, [cell 7; cell 2]); (3, [cell 0; cell 4]) ]).
Proof.
  assert (H : rectangular train4) by (repeat constructor).
  split; [exact H|].
  rewrite (noncritical_isotopes_are_dropped train4 ["88Sr"; "140Ce"; "208Pb"] H).
  vm_compute. reflexivity.
Defined.

(** X6 on [train4]. *)
Lemma critical_channels_of_train4_twice :
  exists out,
    filter_noncritical_isotopes train4 ["88Sr"; "140Ce"; "208Pb"] = Ok out
    /\ filter_noncritical_isotopes out ["88Sr"; "140Ce"; "208Pb"] = Ok out.
Proof.
  eexists. split; [vm_compute; reflexivity|].
  apply (noncritical_filter_is_idempotent train4). vm_compute; reflexivity.
Defined.

(** X8 on [train4] with five stages. *)
Lemma stage_index_on_train4 :
  match returned (find_min_boosting_stages train4 target4 params5 world0) with
  | Some k => 0 <= k < 5
  | None => False
  end.
Proof.
  assert (Hs : is_some (returned (find_min_boosting_stages train4 target4 params5 world0))
               = true) by (vm_compute; reflexivity).
  destruct (returned _) as [k|] eqn:Hv; [|discriminate Hs].
  apply returned_some in Hv.
  destruct (boosting_stage_index_in_range _ _ _ _ _ _ Hv) as (n & m & Hn & Hk & _).
  vm_compute in Hn. inversion Hn; subst n. exact Hk.
Defined.

(** X10 on the first split of [train4]: from five stages to fewer. *)
Lemma n_estimators_after_first_split :
  match returned (rfecv_split train4 target4 (as_matrix train4) target4 2 false 5 ∅ true
                              (columns train4) locals0 split0 world0) with
  | Some (st', _) => exists k, n_estimators_of (gbc_init_params st') = Ok k /\ 0 <= k < 5
  | None => False
  end.
Proof.
  assert (Hs : is_some (returned (rfecv_split train4 target4 (as_matrix train4) target4 2
                 false 5 ∅ true (columns train4) locals0 split0 world0)) = true)
    by (vm_compute; reflexivity).
  destruct (returned _) as [[st' l]|] eqn:Hv; [|discriminate Hs].
  apply returned_some in Hv.
  destruct (stage_search_shrinks_n_estimators _ _ _ _ _ _ _ _ _ _ _ _ _ _ Hv)
    as (n & k & Hn & Hk & _ & Hrange).
  vm_compute in Hn. inversion Hn; subst n. exists k. split; assumption.
Defined.

(** X11 on two splits of [train4] with five stages. *)
Lemma two_splits_within_five_stages :
  match returned (rfecv_feature_identify train4 target4 2 0.25 0 false params5 5 ∅ true
                                         world0) with
  | Some _ => exists n, n_estimators_of params5 = Ok n /\ 2 <= n
  | None => False
  end.
Proof.
  assert (Hs : is_some (returned (rfecv_feature_identify train4 target4 2 0.25 0 false
                 params5 5 ∅ true world0)) = true) by (vm_compute; reflexivity).
  destruct (returned _) as [st|] eqn:Hv; [|discriminate Hs].
  apply returned_some in Hv.
  edestruct (stage_search_bounds_the_splits train4 target4 2 0.25 0 params5 5 ∅ world0 st)
    as [Hnil|(n & Hn & Hlen)]; [vm_compute; reflexivity | exact Hv | discriminate Hnil |].
  exists n. split; [exact Hn|exact Hlen].
Defined.

(** X12 with no split to make: the only way the call returns with the grid
    search on. *)
Lemma grid_search_with_no_split :
  match returned (rfecv_feature_identify train4 target4 0 0.25 0 true params5 5 grid_depth
                                         false world0) with
  | Some st => nameListAll st = [] /\ run st = 0
  | None => False
  end.
Proof.
  assert (Hs : is_some (returned (rfecv_feature_identify train4 target4 0 0.25 0 true
                 params5 5 grid_depth false world0)) = true) by (vm_compute; reflexivity).
  destruct (returned _) as [st|] eqn:Hv; [|discriminate Hs].
  apply returned_some in Hv.
  destruct (grid_search_flag_never_completes_a_split _ _ _ _ _ _ _ _ _ _ _ _ Hv)
    as (_ & -> & _).
  split; reflexivity.
Defined.

(** X13 on the first split of [train4], with the stage search on: the
    classifier still has the keywords of the call. *)
Lemma classifier_keywords_after_first_split :
  match returned (rfecv_split train4 target4 (as_matrix train4) target4 2 false 5 ∅ true
                              (columns train4) locals0 split0 world0) with
  | Some (st', l) =>
      clf_params (gbc st') = params5 /\ clf_params (estimator_ (rfecv l)) = params5
  | None => False
  end.
Proof.
  assert (Hs : is_some (returned (rfecv_split train4 target4 (as_matrix train4) target4 2
                 false 5 ∅ true (columns train4) locals0 split0 world0)) = true)
    by (vm_compute; reflexivity).
  destruct (returned _) as [[st' l]|] eqn:Hv; [|discriminate Hs].
  apply returned_some in Hv.
  destruct (loop_classifier_keeps_its_keywords _ _ _ _ _ _ _ _ _ _ _ _ _ _ _ Hv)
    as (_ & E1 & _ & _ & _ & E2 & _).
  split; [exact E2|exact E1].
Defined.

(** X14 on the first split of [train4]. *)
Lemma retained_names_on_first_split :
  match returned (rfecv_split train4 target4 (as_matrix train4) target4 2 false 5 ∅ false
                              (columns train4) locals0 split0 world0) with
  | Some (_, l) => sublist (nameList l) ["140Ce"; "139La"; "88Sr"]
  | None => False
  end.
Proof.
  assert (Hs : is_some (returned (rfecv_split train4 target4 (as_matrix train4) target4 2
                 false 5 ∅ false (columns train4) locals0 split0 world0)) = true)
    by (vm_compute; reflexivity).
  destruct (returned _) as [[st' l]|] eqn:Hv; [|discriminate Hs].
  apply returned_some in Hv.
  exact (proj2 (retained_names_follow_the_mask _ _ _ _ _ _ _ _ _ _ _ _ _ _ _ _ Hv)).
Defined.

(** X15 on the first split of [train4]. *)
Lemma trimmed_widths_on_first_split :
  match returned (rfecv_split train4 target4 (as_matrix train4) target4 2 false 5 ∅ false
                              (columns train4) locals0 split0 world0) with
  | Some (_, l) =>
      Forall (fun r => length r = length (nameList l)) (X_trimTrainSet l)
      /\ Forall (fun r => length r = length (nameList l)) (X_trimHoldoutSet l)
  | None => False
  end.
Proof.
  assert (Hs : is_some (returned (rfecv_split train4 target4 (as_matrix train4) target4 2
                 false 5 ∅ false (columns train4) locals0 split0 world0)) = true)
    by (vm_compute; reflexivity).
  destruct (returned _) as [[st' l]|] eqn:Hv; [|discriminate Hs].
  apply returned_some in Hv.
  destruct (trimmed_partitions_have_retained_width _ _ _ _ _ _ _ _ _ _ _ _ _ _ _ _ Hv)
    as (_ & _ & F1 & F2).
  split; assumption.
Defined.

(** X16 on two run files. *)
Lemma summary_of_two_runs :
  match returned (apply_trained_classification two_runs "out" "_summary.csv"
                    (GradientBoostingClassifier params5) [0.1%Q; 0.1%Q] "140Ce" train4
                    target4 true true None true world0) with
  | Some table => map run_name table = ["first.csv"; "second.csv"]
  | None => False
  end.
Proof.
  assert (Hs : is_some (returned (apply_trained_classification two_runs "out"
                 "_summary.csv" (GradientBoostingClassifier params5) [0.1%Q; 0.1%Q] "140Ce"
                 train4 target4 true true None true world0)) = true)
    by (vm_compute; reflexivity).
  destruct (returned _) as [table|] eqn:Hv; [|discriminate Hs].
  apply returned_some in Hv.
  exact (proj1 (summary_has_one_row_per_run _ _ _ _ _ _ _ _ _ _ _ _ _ _ _ Hv)).
Defined.

(** X17 on [run_other]: the total is at most the number of rows predicted. *)
Lemma total_on_run_other :
  match returned (classify_run (Some classifier4) "out" "_summary.csv" [0.1%Q; 0.1%Q]
                               "140Ce" true true None true ("run.csv", run_other) world0) with
  | Some l =>
      match X_test_data l with
      | Some r => (total_particle_count r
                   <= inject_Z (Z.of_nat (length (X_test_predicted l))))%Q
      | None => False
      end
  | None => False
  end.
Proof.
  assert (Hs : is_some (option_bind _ _ X_test_data
                 (returned (classify_run (Some classifier4) "out" "_summary.csv"
                    [0.1%Q; 0.1%Q] "140Ce" true true None true ("run.csv", run_other)
                    world0))) = true) by (vm_compute; reflexivity).
  destruct (returned _) as [l|] eqn:Hv; [|discriminate Hs].
  apply returned_some in Hv. simpl in Hs.
  destruct (X_test_data l) as [r|] eqn:Hr; [|discriminate Hs].
  exact (proj1 (proj2 (total_counts_labels_0_and_1 _ _ _ _ _ _ _ _ _ _ _ _ _ _ Hv Hr))).
Defined.
